(** * The note-type manager dialogs of qt/aqt/models.py

    A shallow embedding of the two Qt dialogs of [qt/aqt/models.py]:
    [Models] (the note-type manager) and [AddModel] (the "add note type"
    picker).  The dialogs are event handlers over two collaborators that
    live outside the file: the collection ([col], [col.models]) and the Qt
    list widget.  The collection is an interface (a type class); the list
    widget is modelled by its rows and its current row.  A handler is a
    function of a small state-and-exception monad that also records, in
    order, every call it makes to a collaborator. *)

From Stdlib Require Import ZArith String Ascii Sorted.
From stdpp Require Import base tactics option list gmap strings pretty.

Local Open Scope Z_scope.

(** ** Python values and operations used by the dialogs *)

Module Py.

(** The values a note type (a [Dict[str, Any]]) holds.  Nested lists and
    dicts (fields, templates) are kept as their JSON text: the dialogs never
    look inside them. *)
Inductive Val :=
| VNone
| VBool (b : bool)
| VInt (z : Z)
| VStr (s : string)
| VJson (raw : string).

(** The exceptions the handlers can raise. *)
Inductive Exn :=
| IndexError
| KeyError (key : string)
| TypeError
| AttributeError
| AbortSchemaModification.

(** [l[i]]: a negative index counts from the end, an index outside
    [-len(l) .. len(l) - 1] raises IndexError (here [None]). *)
Definition index {A} (l : list A) (i : Z) : option A :=
  let n := Z.of_nat (length l) in
  if bool_decide (0 ≤ i) then l !! Z.to_nat i
  else if bool_decide (- n ≤ i) then l !! Z.to_nat (n + i)
  else None.

(** The double-quote character, code 34. *)
Definition dquote : ascii := ascii_of_nat 34.

(** [s.replace(c, "")] for a one-character [c].  Strings are UTF-8 byte
    strings; for an ASCII [c] removing the byte is removing the character. *)
Fixpoint remove_char (c : ascii) (s : string) : string :=
  match s with
  | EmptyString => EmptyString
  | String a s' =>
      if Ascii.eqb a c then remove_char c s' else String a (remove_char c s')
  end.

(** Truth value of a str: non-empty. *)
Definition truthy_str (s : string) : bool :=
  match s with EmptyString => false | String _ _ => true end.

(** Truth value of an int: non-zero. *)
Definition truthy_int (z : Z) : bool := negb (z =? 0).

(** Truth value of a dict: non-empty. *)
Definition truthy_dict (d : gmap string Val) : bool :=
  negb (Nat.eqb (size d) 0).

(** [a < b] as [sorted] evaluates it on two keys: defined on two strs (by
    code point, which is byte order in UTF-8) and on two ints or bools;
    TypeError ([None]) between the two kinds and on None.  Nested values are
    outside the model and are treated as not comparable. *)
Definition as_int (v : Val) : option Z :=
  match v with
  | VInt z => Some z
  | VBool b => Some (if b then 1 else 0)
  | _ => None
  end.

Definition lt (a b : Val) : option bool :=
  match a, b with
  | VStr s, VStr t => Some (String.ltb s t)
  | _, _ =>
      match as_int a, as_int b with
      | Some x, Some y => Some (x <? y)
      | _, _ => None
      end
  end.

(** [sorted(l, key=...)], keys already extracted: a stable sort that only
    asks [<].  [insert] puts [x] before the first element that is not
    smaller than it, so equal keys keep the order of [l].  Python's
    own merge sort asks other pairs, and like this one it raises exactly when
    the list has two keys that do not compare. *)
Fixpoint insert {A} (kx : Val) (x : A) (l : list (Val * A)) : option (list (Val * A)) :=
  match l with
  | [] => Some [(kx, x)]
  | (ky, y) :: l' =>
      match lt ky kx with
      | None => None
      | Some true =>
          match insert kx x l' with
          | Some r => Some ((ky, y) :: r)
          | None => None
          end
      | Some false => Some ((kx, x) :: (ky, y) :: l')
      end
  end.

Fixpoint sorted_keyed {A} (l : list (Val * A)) : option (list (Val * A)) :=
  match l with
  | [] => Some []
  | (k, x) :: l' =>
      match sorted_keyed l' with
      | Some r => insert k x r
      | None => None
      end
  end.

End Py.

Export Py(Val(..), Exn(..)).

(** ** Data model *)

(** [NoteTypeID]: an int. *)
Abbreviation NoteTypeID := Z (only parsing).

(** [NoteType]: the legacy note-type dict. *)
Abbreviation NoteType := (gmap string Val) (only parsing).

(** [NoteTypeNameIDUseCount]: one entry of [col.models.all_use_counts()]. *)
Module NoteTypeNameIDUseCount.
Record t := mk { name : string; id : NoteTypeID; use_count : Z }.
End NoteTypeNameIDUseCount.
Abbreviation Entry := NoteTypeNameIDUseCount.t (only parsing).

(** ** The Qt list widget

    [QListWidget] as the dialogs use it: the rows' texts and the current
    row, [-1] when there is no current item.  [setCurrentRow] with a row the
    widget does not have makes the current index invalid, so [currentRow]
    reads [-1] afterwards; [clear] removes the rows and the current item;
    [addItem] appends a row and leaves the current item alone. *)

Module QListWidget.

Record t := mk { items : list string; current : Z }.

Definition new : t := mk [] (-1).

Definition currentRow (w : t) : Z := current w.

Definition clear (w : t) : t := mk [] (-1).

Definition addItem (label : string) (w : t) : t :=
  mk (items w ++ [label]) (current w).

Definition has_row (w : t) (row : Z) : bool :=
  bool_decide (0 ≤ row < Z.of_nat (length (items w))).

Definition setCurrentRow (row : Z) (w : t) : t :=
  mk (items w) (if has_row w row then row else -1).

(** The user clicks row [row]: only a row that is displayed can be clicked. *)
Definition click (row : nat) (w : t) : t :=
  if has_row w (Z.of_nat row) then mk (items w) (Z.of_nat row) else w.

End QListWidget.

(** ** The collaborators

    The collection ([mw.col], [col.models], [anki.stdmodels]) is owned
    elsewhere; the dialogs see it through this interface.  Reads are
    functions of the collection, writes return the new collection.
    [models_get] is [None] when the id is unknown; [modSchema] is [None]
    when the check raises AbortSchemaModification.  A stock note type is
    built by a function of the collection that may also add it.  The
    dialogs [FieldDialog] and [CardLayout] are opened on a note type and
    may change the collection.  [mw_checkpoint] is [mw.checkpoint(name)]:
    the main window saves the collection and marks an undo checkpoint. *)

Class Collection (Col : Type) := {
  models_all_use_counts : Col → list Entry;
  models_all : Col → list NoteType;
  models_get : NoteTypeID → Col → option NoteType;
  models_save : NoteType → Col → Col;
  models_rem : NoteType → Col → Col;
  models_copy : NoteType → Col → NoteType * Col;
  models_setCurrent : NoteType → Col → Col;
  modSchema : bool → Col → option Col;
  get_stock_notetypes : Col → list (string * (Col → NoteType * Col));
  FieldDialog : NoteType → Col → Col;
  CardLayout : NoteType → Col → Col;
  mw_checkpoint : Col → Col;
}.

(** The translated texts that end up in list rows ([tr.*]). *)
Class Translation := {
  browsing_note_count : Z → string;
  notetypes_add : string → string;
  notetypes_clone : Val → string;
}.

(** The texts of the message boxes and prompts, by their [tr] key. *)
Inductive Msg :=
| notetypes_please_add_another_note_type_first
| notetypes_delete_this_note_type_and_all
| notetypes_delete_this_unused_note_type
| actions_new_name
| actions_name.

(** What the user does in the LaTeX options dialog of [onAdvanced]. *)
Record OptionsAnswer := mkOptions {
  latexsvg_checked : bool;
  latexHeader_text : string;
  latexFooter_text : string;
}.

(** One call to a collaborator, as the handlers make them.  A call that
    asks the user carries the user's answer. *)
Inductive Event :=
| EShowInfo (msg : Msg)
| EAskUser (msg : Msg) (answer : bool)
| EGetText (prompt : Msg) (default : Val) (answer : string * bool)
| EOptionsDialog (svg header footer title : Val) (answer : OptionsAnswer)
| EModSchema (check : bool)
| EGet (id : NoteTypeID)
| ESave (nt : NoteType)
| ERem (nt : option NoteType)
| EAllUseCounts
| EAll
| ECopy (nt : NoteType)
| ESetCurrent (nt : NoteType)
| EGetStockNotetypes
| EStockFunc
| EFieldDialog (nt : option NoteType)
| ECardLayout (nt : option NoteType)
| EWithProgress
| EOnDone
| ECheckpoint
| EButtonsHook.

(** ** The handler monad: state, exceptions and the calls made *)

Inductive Outcome (A : Type) :=
| Returned (a : A)
| Raised (e : Exn).
Arguments Returned {A} a.
Arguments Raised {A} e.

Record Result (S A : Type) := mkResult {
  outcome : Outcome A;
  final : S;
  calls : list Event;
}.
Arguments mkResult {S A} outcome final calls.
Arguments outcome {S A} r.
Arguments final {S A} r.
Arguments calls {S A} r.

Definition M (S A : Type) : Type := S → Result S A.

Definition ret {S A} (a : A) : M S A := λ s, mkResult (Returned a) s [].

(** [after cs r]: the result [r] of a continuation, with the calls [cs] made
    before it. *)
Definition after {S A} (cs : list Event) (r : Result S A) : Result S A :=
  match r with
  | mkResult o s cs' => mkResult o s (cs ++ cs')
  end.

Definition bind {S A B} (m : M S A) (k : A → M S B) : M S B :=
  λ s,
    match m s with
    | mkResult (Returned a) s' cs => after cs (k a s')
    | mkResult (Raised e) s' cs => mkResult (Raised e) s' cs
    end.

#[global] Instance M_ret {S} : MRet (M S) := λ A, @ret S A.
#[global] Instance M_bind {S} : MBind (M S) := λ A B k m, @bind S A B m k.

Definition raise {S A} (e : Exn) : M S A := λ s, mkResult (Raised e) s [].

Definition call {S} (e : Event) : M S unit := λ s, mkResult (Returned tt) s [e].

Definition gets {S A} (f : S → A) : M S A := λ s, mkResult (Returned (f s)) s [].

Definition modify {S} (f : S → S) : M S unit := λ s, mkResult (Returned tt) (f s) [].

(** [attempt m] never raises: it hands the outcome of [m] on, as a future
    does. *)
Definition attempt {S A} (m : M S A) : M S (Outcome A) :=
  λ s, match m s with mkResult o s' cs => mkResult (Returned o) s' cs end.

(** [fut.result()]: the task's value, or its exception raised again. *)
Definition fut_result {S A} (fut : Outcome A) : M S A :=
  λ s, mkResult fut s [].

(** [for x in l: body(x)]. *)
Fixpoint for_ {S A} (l : list A) (body : A → M S unit) : M S unit :=
  match l with
  | [] => ret tt
  | x :: l' => bind (body x) (λ _, for_ l' body)
  end.

(** [l[i]] in the monad. *)
Definition subscript {S A} (l : list A) (i : Z) : M S A :=
  match Py.index l i with
  | Some x => ret x
  | None => raise IndexError
  end.

(** [nt[key]] on an Optional note type. *)
Definition getitem {S} (nt : option NoteType) (key : string) : M S Val :=
  match nt with
  | None => raise TypeError
  | Some d =>
      match d !! key with
      | Some v => ret v
      | None => raise (KeyError key)
      end
  end.

(** [nt[key] = v]: the dict after the assignment.  A note type is a value
    here.  Every handler that assigns to a note type passes that note type
    to [models.save] next, so whether [models.get] hands out the
    collection's own dict or a copy makes no difference to the runs. *)
Definition setitem {S} (nt : option NoteType) (key : string) (v : Val) : M S NoteType :=
  match nt with
  | None => raise TypeError
  | Some d => ret (<[key := v]> d)
  end.

(** [nt.get(key, default)]. *)
Definition dict_get {S} (nt : option NoteType) (key : string) (dflt : Val) : M S Val :=
  match nt with
  | None => raise AttributeError
  | Some d => ret (match d !! key with Some v => v | None => dflt end)
  end.

(** [taskman.with_progress(task, on_done, parent)]: the task runs to its end
    (on the worker), then [on_done] is called with its future.  The model
    follows one operation from the dispatch to the end of its callback. *)
Definition with_progress {S A} (task : M S A) (on_done : Outcome A → M S unit) : M S unit :=
  call EWithProgress;;
  fut ← attempt task;
  call EOnDone;;
  on_done fut.

(** ** The dialogs *)

(** The state a handler runs in: the collection and the dialog's own
    attributes. *)
Record World (Col D : Type) := mkWorld { col : Col; dlg : D }.
Arguments mkWorld {Col D} col dlg.
Arguments col {Col D} w.
Arguments dlg {Col D} w.

(** The attributes of [Models] that the handlers read or write:
    [self.fromMain], [self.selected_notetype_id], [self.models] and the rows
    of [self.form.modelsList]. *)
Record Models := mkModels {
  fromMain : bool;
  selected_notetype_id : option NoteTypeID;
  models : list Entry;
  modelsList : QListWidget.t;
}.

(** An entry of [AddModel.models]: [(True, func)] for a stock note type,
    [(False, m)] for a note type to clone; [isStd] is its first component. *)
Inductive AddEntry (Col : Type) :=
| Stock (func : Col → NoteType * Col)
| Clone (m : NoteType).
Arguments Stock {Col} func.
Arguments Clone {Col} m.

Definition isStd {Col} (e : AddEntry Col) : bool :=
  match e with Stock _ => true | Clone _ => false end.

(** The attributes of [AddModel]: [self.model], [self.models] and the rows of
    [self.dialog.models]. *)
Record AddModel (Col : Type) := mkAddModel {
  am_model : option NoteType;
  am_models : list (AddEntry Col);
  am_list : QListWidget.t;
}.
Arguments mkAddModel {Col} am_model am_models am_list.
Arguments am_model {Col} a.
Arguments am_models {Col} a.
Arguments am_list {Col} a.

(** What the user does in the picker while [exec_] runs: close it, or
    accept, after clicking a row or with the row [__init__] selected. *)
Inductive PickerUser :=
| Cancel
| Accept (clicked : option nat).

(** What the user does in the manager while [exec_] runs. *)
Inductive UserOp :=
| ClickRow (row : nat)
| DoubleClickRow (row : nat) (txt : string * bool)
| ClickRename (txt : string * bool)
| ClickAdd (picker : PickerUser) (txt : string * bool)
| ClickDelete (answer : bool)
| ClickOptions (answer : OptionsAnswer)
| ClickFields
| ClickCards.

Section Dialogs.

Context {Col : Type} `{!Collection Col} `{!Translation}.

(** *** Calls into the collection *)

Section Calls.
Context {D : Type}.

Definition set_col (c : Col) : M (World Col D) unit :=
  modify (λ w, mkWorld c (dlg w)).

Definition set_dlg (d : D) : M (World Col D) unit :=
  modify (λ w, mkWorld (col w) d).

Definition mm_all_use_counts : M (World Col D) (list Entry) :=
  call EAllUseCounts;;
  gets (λ w, models_all_use_counts (col w)).

Definition mm_all : M (World Col D) (list NoteType) :=
  call EAll;;
  gets (λ w, models_all (col w)).

Definition mm_get (id : NoteTypeID) : M (World Col D) (option NoteType) :=
  call (EGet id);;
  gets (λ w, models_get id (col w)).

Definition mm_save (nt : NoteType) : M (World Col D) unit :=
  call (ESave nt);;
  c ← gets col;
  set_col (models_save nt c).

(** [mm.rem(nt)]: the collaborator subscripts its argument, so None is a
    TypeError inside the call. *)
Definition mm_rem (nt : option NoteType) : M (World Col D) unit :=
  call (ERem nt);;
  match nt with
  | None => raise TypeError
  | Some n => c ← gets col; set_col (models_rem n c)
  end.

Definition mm_copy (nt : NoteType) : M (World Col D) NoteType :=
  call (ECopy nt);;
  c ← gets col;
  set_col (models_copy nt c).2;;
  mret (models_copy nt c).1.

Definition mm_setCurrent (nt : NoteType) : M (World Col D) unit :=
  call (ESetCurrent nt);;
  c ← gets col;
  set_col (models_setCurrent nt c).

Definition col_modSchema (check : bool) : M (World Col D) unit :=
  call (EModSchema check);;
  c ← gets col;
  match modSchema check c with
  | Some c' => set_col c'
  | None => raise AbortSchemaModification
  end.

Definition stock_func (func : Col → NoteType * Col) : M (World Col D) NoteType :=
  call EStockFunc;;
  c ← gets col;
  set_col (func c).2;;
  mret (func c).1.

Definition open_FieldDialog (nt : option NoteType) : M (World Col D) unit :=
  call (EFieldDialog nt);;
  match nt with
  | None => raise TypeError
  | Some n => c ← gets col; set_col (FieldDialog n c)
  end.

Definition open_CardLayout (nt : option NoteType) : M (World Col D) unit :=
  call (ECardLayout nt);;
  match nt with
  | None => raise TypeError
  | Some n => c ← gets col; set_col (CardLayout n c)
  end.

(** [self.mw.checkpoint(tr.notetypes_note_types())]. *)
Definition checkpoint : M (World Col D) unit :=
  call ECheckpoint;;
  c ← gets col;
  set_col (mw_checkpoint c).

(** A dialog opened from a handler: it has attributes of its own and shares
    the collection. *)
Definition nested {D' A} (init : D') (m : M (World Col D') A) : M (World Col D) A :=
  λ w,
    match m (mkWorld (col w) init) with
    | mkResult o w' cs => mkResult o (mkWorld (col w') (dlg w)) cs
    end.

End Calls.

(** *** Models *)

Abbreviation W := (World Col Models) (only parsing).

Definition set_models (l : list Entry) : M W unit :=
  modify (λ w, mkWorld (col w)
    (mkModels (fromMain (dlg w)) (selected_notetype_id (dlg w)) l (modelsList (dlg w)))).

(** A call on [self.form.modelsList]. *)
Definition on_modelsList (f : QListWidget.t → QListWidget.t) : M W unit :=
  modify (λ w, mkWorld (col w)
    (mkModels (fromMain (dlg w)) (selected_notetype_id (dlg w)) (models (dlg w))
       (f (modelsList (dlg w))))).

Definition currentRow : M W Z :=
  gets (λ w, QListWidget.currentRow (modelsList (dlg w))).

(** The text of a row: [f"{m.name} [{mUse}]"]. *)
Definition row_text (m : Entry) : string :=
  NoteTypeNameIDUseCount.name m +:+ " [" +:+
  browsing_note_count (NoteTypeNameIDUseCount.use_count m) +:+ "]".

Definition updateModelsList (notetypes : list Entry) : M W unit :=
  row ← currentRow;
  let row := if bool_decide (row = -1) then 0 else row in
  on_modelsList QListWidget.clear;;
  set_models notetypes;;
  self_models ← gets (λ w, models (dlg w));
  for_ self_models (λ m, on_modelsList (QListWidget.addItem (row_text m)));;
  on_modelsList (QListWidget.setCurrentRow row).

(** The loop of [maybe_select_provided_notetype]: the first entry whose id is
    the wanted one gets selected, then [break]. *)
Fixpoint select_first (i : nat) (l : list Entry) (wanted : NoteTypeID) : M W unit :=
  match l with
  | [] => mret tt
  | m :: l' =>
      if bool_decide (NoteTypeNameIDUseCount.id m = wanted)
      then on_modelsList (QListWidget.setCurrentRow (Z.of_nat i))
      else select_first (S i) l' wanted
  end.

(** [not self.selected_notetype_id] holds for None and for 0. *)
Definition maybe_select_provided_notetype : M W unit :=
  sel ← gets (λ w, selected_notetype_id (dlg w));
  match sel with
  | None => on_modelsList (QListWidget.setCurrentRow 0)
  | Some wanted =>
      if negb (Py.truthy_int wanted)
      then on_modelsList (QListWidget.setCurrentRow 0)
      else
        self_models ← gets (λ w, models (dlg w));
        select_first 0 self_models wanted
  end.

(** [setupModels]: the default buttons are passed through the hook
    [gui_hooks.models_did_init_buttons] and wired (the wiring of the default
    buttons is [handle] below; buttons an add-on contributes are not
    modelled), then the list is loaded in a task. *)
Definition setupModels : M W unit :=
  call EButtonsHook;;
  with_progress mm_all_use_counts
    (λ fut, r ← fut_result fut; updateModelsList r;; maybe_select_provided_notetype).

Definition current_notetype : M W (option NoteType) :=
  row ← currentRow;
  self_models ← gets (λ w, models (dlg w));
  m ← subscript self_models row;
  mm_get (NoteTypeNameIDUseCount.id m).

Definition saveAndRefresh (nt : NoteType) : M W unit :=
  with_progress (mm_save nt;; mm_all_use_counts)
    (λ fut, r ← fut_result fut; updateModelsList r).

(** [onRename]; [txt] is what [getText] returns: the text of the line edit
    and whether the user accepted. *)
Definition onRename (txt : string * bool) : M W unit :=
  nt ← current_notetype;
  default ← getitem nt "name";
  call (EGetText actions_new_name default txt);;
  let name := Py.remove_char Py.dquote txt.1 in
  if txt.2 && Py.truthy_str name then
    nt' ← setitem nt "name" (VStr name);
    saveAndRefresh nt'
  else mret tt.

(** [onDelete]; [answer] is what [askUser] returns when it is asked. *)
Definition onDelete (answer : bool) : M W unit :=
  self_models ← gets (λ w, models (dlg w));
  if bool_decide (length self_models < 2)%nat then
    call (EShowInfo notetypes_please_add_another_note_type_first)
  else
    idx ← currentRow;
    m ← subscript self_models idx;
    let msg := if Py.truthy_int (NoteTypeNameIDUseCount.use_count m)
               then notetypes_delete_this_note_type_and_all
               else notetypes_delete_this_unused_note_type in
    call (EAskUser msg answer);;
    if negb answer then mret tt
    else
      col_modSchema true;;
      nt ← current_notetype;
      with_progress (mm_rem nt;; mm_all_use_counts)
        (λ fut, r ← fut_result fut; updateModelsList r).

(** [onAdvanced]; [answer] is the state of the options dialog when it
    closes. *)
Definition onAdvanced (answer : OptionsAnswer) : M W unit :=
  nt ← current_notetype;
  svg ← dict_get nt "latexsvg" (VBool false);
  header ← getitem nt "latexPre";
  footer ← getitem nt "latexPost";
  title ← getitem nt "name";
  call (EOptionsDialog svg header footer title answer);;
  nt1 ← setitem nt "latexsvg" (VBool (latexsvg_checked answer));
  nt2 ← setitem (Some nt1) "latexPre" (VStr (latexHeader_text answer));
  nt3 ← setitem (Some nt2) "latexPost" (VStr (latexFooter_text answer));
  saveAndRefresh nt3.

Definition onFields : M W unit :=
  nt ← current_notetype;
  open_FieldDialog nt.

Definition onCards : M W unit :=
  nt ← current_notetype;
  open_CardLayout nt.

(** *** AddModel *)

Abbreviation WA := (World Col (AddModel Col)) (only parsing).

Definition on_picker_list (f : QListWidget.t → QListWidget.t) : M WA unit :=
  modify (λ w, mkWorld (col w)
    (mkAddModel (am_model (dlg w)) (am_models (dlg w)) (f (am_list (dlg w))))).

(** [self.models.append(e)]. *)
Definition append_entry (e : AddEntry Col) : M WA unit :=
  modify (λ w, mkWorld (col w)
    (mkAddModel (am_model (dlg w)) (am_models (dlg w) ++ [e]) (am_list (dlg w)))).

(** [self.model = m]. *)
Definition set_model (m : NoteType) : M WA unit :=
  modify (λ w, mkWorld (col w)
    (mkAddModel (Some m) (am_models (dlg w)) (am_list (dlg w)))).

(** The keys [sorted] computes before it compares: [itemgetter("name")(m)]
    for every [m], in order. *)
Fixpoint keyed (l : list NoteType) : M WA (list (Val * NoteType)) :=
  match l with
  | [] => mret []
  | m :: l' =>
      k ← getitem (Some m) "name";
      r ← keyed l';
      mret ((k, m) :: r)
  end.

Definition sorted_by_name (l : list NoteType) : M WA (list (Val * NoteType)) :=
  ks ← keyed l;
  match Py.sorted_keyed ks with
  | Some r => mret r
  | None => raise TypeError
  end.

(** The attributes of a picker before the body of [__init__] fills them. *)
Definition AddModel_new : AddModel Col := mkAddModel None [] QListWidget.new.

Definition AddModel__init__ : M WA unit :=
  call EGetStockNotetypes;;
  stock ← gets (λ w, get_stock_notetypes (col w));
  for_ stock (λ '(name, func),
    on_picker_list (QListWidget.addItem (notetypes_add name));;
    append_entry (Stock func));;
  all ← mm_all;
  clones ← sorted_by_name all;
  for_ clones (λ '(name, m),
    on_picker_list (QListWidget.addItem (notetypes_clone name));;
    append_entry (Clone m));;
  on_picker_list (QListWidget.setCurrentRow 0).

Definition AddModel_accept : M WA unit :=
  row ← gets (λ w, QListWidget.currentRow (am_list (dlg w)));
  self_models ← gets (λ w, am_models (dlg w));
  e ← subscript self_models row;
  match e with
  | Stock func =>
      m ← stock_func func;
      set_model m
  | Clone model =>
      m ← mm_copy model;
      set_model m;;
      mm_setCurrent m
  end.

(** [get]: [exec_] runs until the user accepts or closes the picker, then
    [self.model] is returned. *)
Definition AddModel_get (user : PickerUser) : M WA (option NoteType) :=
  match user with
  | Cancel => mret tt
  | Accept None => AddModel_accept
  | Accept (Some row) => on_picker_list (QListWidget.click row);; AddModel_accept
  end;;
  gets (λ w, am_model (dlg w)).

(** *** Models, continued *)

(** [onAdd]; [picker] is what the user does in the picker and [txt] what
    [getText] returns.  [if m:] is false for None and for an empty dict. *)
Definition onAdd (picker : PickerUser) (txt : string * bool) : M W unit :=
  m ← nested AddModel_new (AddModel__init__;; AddModel_get picker);
  match m with
  | None => mret tt
  | Some m =>
      if Py.truthy_dict m then
        default ← getitem (Some m) "name";
        call (EGetText actions_name default txt);;
        let txt := Py.remove_char Py.dquote txt.1 in
        m' ← (if Py.truthy_str txt then setitem (Some m) "name" (VStr txt) else mret m);
        saveAndRefresh m'
      else mret tt
  end.

(** A button that [setupModels] adds only [if self.fromMain]. *)
Definition if_fromMain (handler : M W unit) : M W unit :=
  λ w, if fromMain (dlg w) then handler w else ret tt w.

(** One thing the user does in the manager, as [setupModels] wires it: the
    buttons to their handlers ([Fields] and [Cards] exist only when
    [fromMain]), a double click on a row to [onRename]. *)
Definition handle (op : UserOp) : M W unit :=
  match op with
  | ClickRow row => on_modelsList (QListWidget.click row)
  | DoubleClickRow row txt =>
      lw ← gets (λ w, modelsList (dlg w));
      if QListWidget.has_row lw (Z.of_nat row)
      then on_modelsList (QListWidget.click row);; onRename txt
      else ret tt
  | ClickRename txt => onRename txt
  | ClickAdd picker txt => onAdd picker txt
  | ClickDelete answer => onDelete answer
  | ClickOptions answer => onAdvanced answer
  | ClickFields => if_fromMain onFields
  | ClickCards => if_fromMain onCards
  end.

(** [exec_]: the event loop, followed up to the first exception. *)
Definition exec_ (ops : list UserOp) : M W unit := for_ ops handle.

(** The attributes of a manager before [setupModels] runs. *)
Definition Models_new (from_main : bool) (selected : option NoteTypeID) : Models :=
  mkModels from_main selected [] QListWidget.new.

(** [Models(mw, parent, fromMain, selected_notetype_id)], with what the user
    does while the dialog is open: the undo checkpoint, [setupModels], then
    [exec_].  The help button and the geometry of the window are not
    modelled. *)
Definition Models__init__ (from_main : bool) (selected : option NoteTypeID)
    (ops : list UserOp) (c : Col) : Result W unit :=
  (checkpoint;; setupModels;; exec_ ops) (mkWorld c (Models_new from_main selected)).

End Dialogs.

(** ** A small collection to run the handlers on

    Note types in a list, each with its use count; ids are the ["id"] of
    the dict.  [save] replaces the note type of the same id or appends a new
    one, [rem] drops it, [copy] adds a renamed copy under a fresh id, and
    the schema check fails when the collection is [locked]. *)

Module InMemory.

Record t := mk {
  notetypes : list (NoteType * Z);
  current : option NoteType;
  locked : bool;
}.

Definition nt_id (nt : NoteType) : Z :=
  match nt !! "id" with Some (VInt z) => z | _ => 0 end.

Definition nt_name (nt : NoteType) : string :=
  match nt !! "name" with Some (VStr s) => s | _ => "" end.

Definition has_id (i : Z) (p : NoteType * Z) : bool := bool_decide (nt_id p.1 = i).

Definition all_use_counts (c : t) : list Entry :=
  map (λ p, NoteTypeNameIDUseCount.mk (nt_name p.1) (nt_id p.1) p.2) (notetypes c).

Definition all (c : t) : list NoteType := map fst (notetypes c).

Definition get (i : Z) (c : t) : option NoteType :=
  match List.find (has_id i) (notetypes c) with
  | Some p => Some p.1
  | None => None
  end.

Definition fresh_id (c : t) : Z :=
  1 + foldr Z.max 0 (map (λ p, nt_id p.1) (notetypes c)).

Definition add (nt : NoteType) (c : t) : t :=
  mk (notetypes c ++ [(nt, 0)]) (current c) (locked c).

Definition save (nt : NoteType) (c : t) : t :=
  if existsb (has_id (nt_id nt)) (notetypes c)
  then mk (map (λ p, if has_id (nt_id nt) p then (nt, p.2) else p) (notetypes c))
          (current c) (locked c)
  else add nt c.

Definition rem (nt : NoteType) (c : t) : t :=
  mk (List.filter (λ p, negb (has_id (nt_id nt) p)) (notetypes c)) (current c) (locked c).

Definition copy (nt : NoteType) (c : t) : NoteType * t :=
  let nt' := <["id" := VInt (fresh_id c)]> (<["name" := VStr (nt_name nt +:+ " copy")]> nt) in
  (nt', add nt' c).

Definition setCurrent (nt : NoteType) (c : t) : t :=
  mk (notetypes c) (Some nt) (locked c).

Definition check_schema (check : bool) (c : t) : option t :=
  if check && locked c then None else Some c.

Definition notetype (i : Z) (nm : string) : NoteType :=
  {[ "id" := VInt i; "name" := VStr nm; "latexPre" := VStr ""; "latexPost" := VStr "" ]}.

Definition basic (c : t) : NoteType * t :=
  let nt := notetype (fresh_id c) "Basic" in (nt, add nt c).

#[global] Instance collection : Collection t := {|
  models_all_use_counts := all_use_counts;
  models_all := all;
  models_get := get;
  models_save := save;
  models_rem := rem;
  models_copy := copy;
  models_setCurrent := setCurrent;
  modSchema := check_schema;
  get_stock_notetypes := λ _, [("Basic"%string, basic)];
  FieldDialog := λ _ c, c;
  CardLayout := λ _ c, c;
  mw_checkpoint := λ c, c;
|}.

(** English texts. *)
#[global] Instance english : Translation := {|
  browsing_note_count := λ n, pretty n +:+ " notes";
  notetypes_add := λ s, "Add: " +:+ s;
  notetypes_clone := λ v, "Clone: " +:+ match v with VStr s => s | _ => "" end;
|}.

(** Two unused note types, A (id 1) and B (id 2). *)
Definition two : t :=
  mk [(notetype 1 "A", 0); (notetype 2 "B", 0)] None false.

(** A manager showing [c]'s note types with row [row] current. *)
Definition showing (c : t) (row : Z) : World t Models :=
  mkWorld c (mkModels true None (all_use_counts c)
    (QListWidget.mk (map row_text (all_use_counts c)) row)).

End InMemory.

(** ** Vocabulary of the properties *)

(** The row [updateModelsList] asks the rebuilt list to select: the row that
    was current, or 0 when none was. *)
Definition remembered_row (lw : QListWidget.t) : Z :=
  if bool_decide (QListWidget.current lw = -1) then 0 else QListWidget.current lw.

(** The first row of [l] whose entry has the id [wanted]. *)
Definition first_with_id (wanted : NoteTypeID) (l : list Entry) : option nat :=
  fst <$> list_find (λ m, NoteTypeNameIDUseCount.id m = wanted) l.

(** The dialog shows the collection: the cached list is what
    [all_use_counts] returns for the collection, and the widget has one row
    per cached entry, in order, with the entry's text. *)
Definition mirrors `{!Collection Col} `{!Translation} (w : World Col Models) : Prop :=
  models (dlg w) = models_all_use_counts (col w) ∧
  QListWidget.items (modelsList (dlg w)) = map row_text (models (dlg w)).

(** The handler [m] makes no call that satisfies [P], whatever state it
    starts in. *)
Definition never {S A} (P : Event → Prop) (m : M S A) : Prop :=
  ∀ s e, e ∈ calls (m s) → ¬ P e.

Definition is_save (e : Event) : Prop :=
  match e with ESave _ => True | _ => False end.

(** The calls the picker can make. *)
Definition picker_event (e : Event) : Prop :=
  match e with
  | EGetStockNotetypes | EAll | EStockFunc | ECopy _ | ESetCurrent _ => True
  | _ => False
  end.

(** The number of tasks handed to [taskman.with_progress] in a list of
    calls. *)
Definition is_dispatch (e : Event) : bool :=
  match e with EWithProgress => true | _ => false end.

Definition dispatches (cs : list Event) : nat := length (List.filter is_dispatch cs).

(** The widget shows the cached list: one row per entry with the entry's
    text, and the current row is none or one of these rows. *)
Definition tidy `{!Translation} (d : Models) : Prop :=
  QListWidget.items (modelsList d) = map row_text (models d) ∧
  (QListWidget.current (modelsList d) = -1 ∨
   0 ≤ QListWidget.current (modelsList d) < Z.of_nat (length (models d))).

(** The keys of a list of keyed elements are in ascending order: no key is
    smaller than the one before it. *)
Definition not_before {A} (p q : Val * A) : Prop := Py.lt q.1 p.1 = Some false.

Definition ascending {A} (l : list (Val * A)) : Prop := Sorted not_before l.

(** The elements of [l] that carry the key [k], in the order of [l]. *)
Definition with_key {A} (k : string) (l : list (Val * A)) : list A :=
  omap (λ p, match p.1 with
             | VStr s => if String.eqb s k then Some p.2 else None
             | _ => None
             end) l.

(** Every key of [l] is a str. *)
Definition str_keys {A} (l : list (Val * A)) : Prop :=
  Forall (λ p, ∃ s, p.1 = VStr s) l.

(** The selected row is a row of the cached list. *)
Definition row_in_range (d : Models) : Prop :=
  0 ≤ QListWidget.currentRow (modelsList d) < Z.of_nat (length (models d)).

(** * Properties *)

#[local] Set Warnings "-clear-no-such-hyp".

(** ** Running a handler step by step *)

Lemma bind_unfold {S A B} (m : M S A) (k : A → M S B) (s : S) :
  bind m k s =
  match m s with
  | mkResult (Returned a) s' cs => after cs (k a s')
  | mkResult (Raised e) s' cs => mkResult (Raised e) s' cs
  end.
Proof. reflexivity. Qed.

Lemma mbind_unfold {S A B} (m : M S A) (k : A → M S B) (s : S) :
  (m ≫= k) s =
  match m s with
  | mkResult (Returned a) s' cs => after cs (k a s')
  | mkResult (Raised e) s' cs => mkResult (Raised e) s' cs
  end.
Proof. reflexivity. Qed.

Lemma after_nil {S A} (r : Result S A) : after [] r = r.
Proof. by destruct r. Qed.

Lemma calls_after {S A} (cs : list Event) (r : Result S A) :
  calls (after cs r) = cs ++ calls r.
Proof. by destruct r. Qed.

Lemma final_after {S A} (cs : list Event) (r : Result S A) :
  final (after cs r) = final r.
Proof. by destruct r. Qed.

Lemma outcome_after {S A} (cs : list Event) (r : Result S A) :
  outcome (after cs r) = outcome r.
Proof. by destruct r. Qed.

Lemma attempt_unfold {S A} (m : M S A) (s : S) :
  attempt m s = match m s with mkResult o s' cs => mkResult (Returned o) s' cs end.
Proof. reflexivity. Qed.

Create Rewrite HintDb run.
#[export] Hint Rewrite @bind_unfold @mbind_unfold @attempt_unfold @after_nil @calls_after
  @final_after @outcome_after : run.

Ltac mcbn :=
  cbn [mret M_ret ret raise call gets modify attempt fut_result after
       outcome final calls col dlg app fst snd
       fromMain selected_notetype_id models modelsList am_model am_models am_list
       QListWidget.items QListWidget.current QListWidget.currentRow QListWidget.clear
       QListWidget.addItem negb andb].

Ltac munfold :=
  unfold with_progress, set_col, set_dlg, set_models, currentRow, subscript,
    getitem, setitem, dict_get, mm_all_use_counts, mm_all, mm_get, mm_save, mm_rem,
    mm_copy, mm_setCurrent, col_modSchema, stock_func, open_FieldDialog,
    open_CardLayout, checkpoint.

Ltac mrun :=
  repeat first [progress mcbn | progress autorewrite with run | progress munfold].

(** Case analysis on whatever the next step of the handler branches on. *)
Ltac mcase :=
  repeat (mrun;
          match goal with
          | |- context [match ?x with _ => _ end] =>
              lazymatch type of x with
              | Result _ _ => fail
              | _ => destruct x eqn:?
              end
          end);
  mrun.

(** Goals about a list of calls that is known up to its elements. *)
Ltac at_index i :=
  repeat (destruct i as [|i]; simplify_eq/=; try done).

Section Proofs.

Context {Col : Type} `{!Collection Col} `{!Translation}.

Implicit Types (w : World Col Models) (nt : NoteType) (m : Entry).

Lemma on_modelsList_run (f : QListWidget.t → QListWidget.t) w :
  on_modelsList f w =
  mkResult (Returned tt)
    (mkWorld (col w)
       (mkModels (fromMain (dlg w)) (selected_notetype_id (dlg w)) (models (dlg w))
          (f (modelsList (dlg w))))) [].
Proof. reflexivity. Qed.
Hint Rewrite on_modelsList_run : run.

(** The loop of [updateModelsList] appends one row per entry, in order. *)
Lemma for_addItem (l : list Entry) w :
  for_ l (λ m, on_modelsList (QListWidget.addItem (row_text m))) w =
  mkResult (Returned tt)
    (mkWorld (col w)
       (mkModels (fromMain (dlg w)) (selected_notetype_id (dlg w)) (models (dlg w))
          (QListWidget.mk (QListWidget.items (modelsList (dlg w)) ++ map row_text l)
             (QListWidget.current (modelsList (dlg w)))))) [].
Proof.
  revert w. induction l as [|m l IH]; intros [c [fm sel ms [its cur]]]; cbn [for_]; mrun.
  - by rewrite app_nil_r.
  - rewrite IH. mrun. by rewrite <- app_assoc.
Qed.
Hint Rewrite for_addItem : run.

Lemma updateModelsList_run (notetypes : list Entry) w :
  updateModelsList notetypes w =
  mkResult (Returned tt)
    (mkWorld (col w)
       (mkModels (fromMain (dlg w)) (selected_notetype_id (dlg w)) notetypes
          (QListWidget.setCurrentRow (remembered_row (modelsList (dlg w)))
             (QListWidget.mk (map row_text notetypes) (-1))))) [].
Proof.
  destruct w as [c [fm sel ms [its cur]]].
  unfold updateModelsList. mrun. reflexivity.
Qed.
Hint Rewrite updateModelsList_run : run.

Lemma current_notetype_run w :
  current_notetype w =
  match Py.index (models (dlg w)) (QListWidget.current (modelsList (dlg w))) with
  | Some m =>
      mkResult (Returned (models_get (NoteTypeNameIDUseCount.id m) (col w))) w
        [EGet (NoteTypeNameIDUseCount.id m)]
  | None => mkResult (Raised IndexError) w []
  end.
Proof.
  destruct w as [c [fm sel ms [its cur]]].
  unfold current_notetype. mrun.
  destruct (Py.index ms cur) as [m|]; mrun; reflexivity.
Qed.

Lemma saveAndRefresh_run nt w :
  saveAndRefresh nt w =
  mkResult (Returned tt)
    (mkWorld (models_save nt (col w))
       (mkModels (fromMain (dlg w)) (selected_notetype_id (dlg w))
          (models_all_use_counts (models_save nt (col w)))
          (QListWidget.setCurrentRow (remembered_row (modelsList (dlg w)))
             (QListWidget.mk (map row_text (models_all_use_counts (models_save nt (col w))))
                (-1)))))
    [EWithProgress; ESave nt; EAllUseCounts; EOnDone].
Proof.
  destruct w as [c [fm sel ms [its cur]]].
  unfold saveAndRefresh. mrun. reflexivity.
Qed.

Hint Rewrite current_notetype_run saveAndRefresh_run : run.

(** ** Deleting *)

(** C8. With fewer than two note types listed, [onDelete] shows the
    information box and returns: that is its only call (no schema check, no
    [models.rem]), and the collection and the dialog are as before. *)
Theorem onDelete_needs_two_notetypes (answer : bool) w :
  (length (models (dlg w)) < 2)%nat →
  onDelete answer w =
  mkResult (Returned tt) w [EShowInfo notetypes_please_add_another_note_type_first].
Proof.
  intros Hlen. destruct w as [c [fm sel ms lw]].
  unfold onDelete. mrun. cbn in Hlen. by rewrite bool_decide_true.
Qed.

(** C2. In every run of [onDelete], a call of [models.rem] comes after a call
    of [askUser] that returned true; and when [askUser] returned false there
    is no call of [models.rem] and the collection is the one before. *)
Theorem onDelete_rem_only_after_confirmation (answer : bool) w :
  let r := onDelete answer w in
  (∀ i (nt : option NoteType), calls r !! i = Some (ERem nt) →
     ∃ j msg, (j < i)%nat ∧ calls r !! j = Some (EAskUser msg true)) ∧
  (∀ msg, EAskUser msg false ∈ calls r →
     (∀ nt : option NoteType, ERem nt ∉ calls r) ∧ col (final r) = col w).
Proof.
  destruct w as [c [fm sel ms [its cur]]]. cbn zeta.
  unfold onDelete. destruct answer; mcase.
  all: split; [intros i nt Hi; at_index i; by eexists 0%nat, _; split; [lia|] |].
  all: intros msg Hin; split; [intros nt Hrem|]; set_unfold; naive_solver.
Qed.

(** C3. In every run of [onDelete], a call of [models.rem] comes after the
    call [col.modSchema(check=True)], and the note type it removes is the one
    [current_notetype] read after that check. *)
Theorem onDelete_modSchema_before_rem (answer : bool) w :
  let r := onDelete answer w in
  ∀ i (nt : option NoteType), calls r !! i = Some (ERem nt) →
    ∃ j k m, (j < k < i)%nat ∧
      calls r !! j = Some (EModSchema true) ∧
      calls r !! k = Some (EGet (NoteTypeNameIDUseCount.id m)) ∧
      Py.index (models (dlg w)) (QListWidget.current (modelsList (dlg w))) = Some m ∧
      ∃ c', modSchema true (col w) = Some c' ∧
        nt = models_get (NoteTypeNameIDUseCount.id m) c'.
Proof.
  destruct w as [c [fm sel ms [its cur]]]. cbn zeta.
  unfold onDelete. destruct answer; mcase.
  all: intros i nt Hi; at_index i.
  all: eexists 1%nat, 2%nat, _; split; [lia|]; eauto 10.
Qed.

(** ** The list and its selection *)

Lemma select_first_run (i : nat) (l : list Entry) (wanted : NoteTypeID) w :
  select_first i l wanted w =
  mkResult (Returned tt)
    (mkWorld (col w)
       (mkModels (fromMain (dlg w)) (selected_notetype_id (dlg w)) (models (dlg w))
          match first_with_id wanted l with
          | Some k => QListWidget.setCurrentRow (Z.of_nat (i + k)) (modelsList (dlg w))
          | None => modelsList (dlg w)
          end)) [].
Proof.
  unfold first_with_id. revert i.
  induction l as [|m l IH]; intros i; cbn [select_first list_find].
  - by destruct w as [c []].
  - case_bool_decide as Hid; case_decide; try done.
    + mrun. cbn. by rewrite Nat.add_0_r.
    + rewrite IH. destruct (list_find _ l) as [[k x]|]; cbn; [|done].
      by rewrite Nat.add_succ_r.
Qed.

Lemma maybe_select_provided_notetype_run w :
  maybe_select_provided_notetype w =
  mkResult (Returned tt)
    (mkWorld (col w)
       (mkModels (fromMain (dlg w)) (selected_notetype_id (dlg w)) (models (dlg w))
          match selected_notetype_id (dlg w) with
          | None => QListWidget.setCurrentRow 0 (modelsList (dlg w))
          | Some wanted =>
              if bool_decide (wanted = 0)
              then QListWidget.setCurrentRow 0 (modelsList (dlg w))
              else
                match first_with_id wanted (models (dlg w)) with
                | Some k => QListWidget.setCurrentRow (Z.of_nat k) (modelsList (dlg w))
                | None => modelsList (dlg w)
                end
          end)) [].
Proof.
  destruct w as [c [fm [wanted|] ms lw]]; unfold maybe_select_provided_notetype; mrun;
    [|done].
  unfold Py.truthy_int. case_bool_decide as H0.
  - subst wanted. by mrun.
  - apply Z.eqb_neq in H0 as ->. mrun. by rewrite select_first_run.
Qed.
Hint Rewrite maybe_select_provided_notetype_run : run.

(** C6. [updateModelsList] caches exactly the list it is given and shows one
    row per entry in the same order; and at each of its three call sites
    (the initial load, [saveAndRefresh], [onDelete]) that list is what
    [models.all_use_counts] returns for the collection the run ends with. *)
Theorem updateModelsList_caches_all_use_counts :
  (∀ notetypes w,
     let r := updateModelsList notetypes w in
     outcome r = Returned tt ∧
     models (dlg (final r)) = notetypes ∧
     QListWidget.items (modelsList (dlg (final r))) = map row_text notetypes ∧
     col (final r) = col w) ∧
  (∀ w, mirrors (final (setupModels w))) ∧
  (∀ nt w, mirrors (final (saveAndRefresh nt w))) ∧
  (∀ answer w, EAllUseCounts ∈ calls (onDelete answer w) →
     mirrors (final (onDelete answer w))).
Proof.
  unfold mirrors. split_and!.
  - intros nts w. by mrun.
  - intros [c [fm sel ms [its cur]]]. unfold setupModels. mrun.
    by destruct sel as [wanted|]; [case_bool_decide; [|destruct (first_with_id _ _)]|].
  - intros nt w. by mrun.
  - intros answer [c [fm sel ms [its cur]]]. unfold onDelete. destruct answer; mcase.
    all: try done.
    all: intros Hin; set_unfold; naive_solver.
Qed.

Lemma first_with_id_lt (wanted : NoteTypeID) (l : list Entry) (i : nat) :
  first_with_id wanted l = Some i →
  (i < length l)%nat ∧ ∃ m, l !! i = Some m ∧ NoteTypeNameIDUseCount.id m = wanted.
Proof.
  unfold first_with_id. intros Hf.
  destruct (list_find _ l) as [[k m]|] eqn:Hfind; simplify_eq/=.
  apply list_find_Some in Hfind as (Hk & Hid & _).
  split; [by eapply lookup_lt_Some | eauto].
Qed.

(** The general rule, from any state whose list widget has one row per
    cached entry: [maybe_select_provided_notetype] makes no call and touches
    only the current row; with no id, or with the id 0 (the test is [not
    self.selected_notetype_id]), it asks for row 0; with a non-zero id that
    some entry has, the first such row becomes current; with a non-zero id
    that no entry has, the list widget is as before. *)
Theorem maybe_select_provided_notetype_selects w :
  length (QListWidget.items (modelsList (dlg w))) = length (models (dlg w)) →
  let r := maybe_select_provided_notetype w in
  let lw := modelsList (dlg w) in
  let lw' := modelsList (dlg (final r)) in
  outcome r = Returned tt ∧ calls r = [] ∧ col (final r) = col w ∧
  models (dlg (final r)) = models (dlg w) ∧
  (models (dlg w) ≠ [] → QListWidget.setCurrentRow 0 lw = QListWidget.mk (QListWidget.items lw) 0) ∧
  match selected_notetype_id (dlg w) with
  | None => lw' = QListWidget.setCurrentRow 0 lw
  | Some wanted =>
      if bool_decide (wanted = 0) then lw' = QListWidget.setCurrentRow 0 lw
      else
        match first_with_id wanted (models (dlg w)) with
        | Some i => lw' = QListWidget.mk (QListWidget.items lw) (Z.of_nat i)
        | None => lw' = lw
        end
  end.
Proof.
  intros Hrows. cbn zeta. rewrite maybe_select_provided_notetype_run.
  destruct w as [c [fm sel ms [its cur]]].
  cbn [dlg col models modelsList selected_notetype_id final outcome calls
       QListWidget.items] in *.
  split_and!; try done.
  - intros Hne. unfold QListWidget.setCurrentRow, QListWidget.has_row. cbn.
    rewrite bool_decide_true; [done|]. destruct ms; [congruence|]. cbn in Hrows. lia.
  - destruct sel as [wanted|]; [|done]. case_bool_decide; [done|].
    destruct (first_with_id wanted ms) as [i|] eqn:Hi; [|done].
    apply first_with_id_lt in Hi as [Hlt _].
    unfold QListWidget.setCurrentRow, QListWidget.has_row. cbn.
    rewrite bool_decide_true; [done|lia].
Qed.

(** X1. The row that is current after [updateModelsList]: the remembered row if
    the new list has it, and none otherwise.  In particular the selection is
    lost when the new list is shorter than the remembered row needs. *)
Lemma updateModelsList_selection (notetypes : list Entry) w :
  QListWidget.currentRow (modelsList (dlg (final (updateModelsList notetypes w)))) =
  if bool_decide (0 ≤ remembered_row (modelsList (dlg w)) < Z.of_nat (length notetypes))
  then remembered_row (modelsList (dlg w))
  else -1.
Proof.
  rewrite updateModelsList_run. cbn. unfold QListWidget.has_row. cbn.
  by rewrite length_map.
Qed.

(** ** Calls a handler never makes *)

Section Never.
Context {S : Type} (P : Event → Prop).

Lemma never_quiet {A} (m : M S A) : (∀ s, calls (m s) = []) → never P m.
Proof. intros Hq s e. rewrite Hq. by intros ?%elem_of_nil. Qed.

Lemma never_call (e : Event) : ¬ P e → never P (call (S:=S) e).
Proof. intros HP s e' ?%list_elem_of_singleton. by subst. Qed.

Lemma never_bind {A B} (m : M S A) (k : A → M S B) :
  never P m → (∀ a, never P (k a)) → never P (m ≫= k).
Proof.
  intros Hm Hk s e. rewrite mbind_unfold.
  specialize (Hm s). destruct (m s) as [[a|x] s' cs]; cbn in *; [|by apply Hm].
  rewrite calls_after. intros [?|?]%elem_of_app; [by apply Hm | by eapply Hk].
Qed.

Lemma never_for_ {A} (l : list A) (body : A → M S unit) :
  (∀ x, never P (body x)) → never P (for_ l body).
Proof.
  intros Hbody. induction l as [|x l IH]; cbn [for_].
  - by apply never_quiet.
  - by apply (never_bind (body x) (λ _, for_ l body)).
Qed.

End Never.

Lemma never_nested {D D' A} (P : Event → Prop) (init : D') (m : M (World Col D') A) :
  never P m → never P (nested (D:=D) init m).
Proof.
  intros Hm w e. unfold nested. specialize (Hm (mkWorld (col w) init)).
  destruct (m _) as [o w' cs]. apply Hm.
Qed.

Lemma never_keyed (P : Event → Prop) (l : list NoteType) : never P (keyed (Col:=Col) l).
Proof.
  induction l as [|m l IH]; cbn [keyed]; [by apply never_quiet|].
  apply never_bind; [|intros k; apply never_bind; [done|intros r; by apply never_quiet]].
  unfold getitem. destruct (m !! "name"); by apply never_quiet.
Qed.

(** The picker makes only the calls of [picker_event]. *)
Lemma never_picker (P : Event → Prop) (picker : PickerUser) :
  (∀ e, picker_event e → ¬ P e) →
  never P (AddModel__init__;; AddModel_get picker).
Proof.
  intros HP.
  unfold AddModel__init__, AddModel_get, AddModel_accept, sorted_by_name.
  munfold.
  repeat match goal with
         | |- never _ (keyed _) => apply never_keyed
         | |- never _ (_ ≫= _) => apply never_bind; [|intros ?]
         | |- never _ (for_ _ _) => apply never_for_; intros [??]
         | |- never _ (call _) => apply never_call, HP; exact I
         | |- never _ (match ?x with _ => _ end) => destruct x
         | |- never _ _ => apply never_quiet; done
         end.
Qed.

Lemma never_save_picker (picker : PickerUser) :
  never is_save (AddModel__init__;; AddModel_get picker).
Proof. apply never_picker. intros e; destruct e; cbn; tauto. Qed.

Lemma dispatches_app (cs cs' : list Event) :
  dispatches (cs ++ cs') = (dispatches cs + dispatches cs')%nat.
Proof. unfold dispatches. by rewrite List.filter_app, length_app. Qed.

Lemma never_dispatches {S A} (m : M S A) (s : S) :
  never (λ e, is_dispatch e = true) m → dispatches (calls (m s)) = 0%nat.
Proof.
  intros Hm. specialize (Hm s). unfold dispatches.
  induction (calls (m s)) as [|e cs IH]; [done|]. cbn.
  destruct (is_dispatch e) eqn:He.
  - exfalso. by apply (Hm e); [left|].
  - apply IH. intros e' Hin. apply Hm. by right.
Qed.

(** X16. Every operation of the user hands at most one task to
    [taskman.with_progress]. *)
Lemma handle_dispatches_at_most_once (op : UserOp) w :
  (dispatches (calls (handle op w)) ≤ 1)%nat.
Proof.
  destruct w as [c [fm sel ms [its cur]]].
  destruct op as [row|row [text ok]|[text ok]|picker [text ok]|answer|answer| |];
    cbn [handle].
  - cbn. lia.
  - unfold onRename. destruct ok; mcase; cbn; lia.
  - unfold onRename. destruct ok; mcase; cbn; lia.
  - unfold onAdd. rewrite mbind_unfold.
    assert (dispatches (calls
      (nested (D:=Models) AddModel_new (AddModel__init__;; AddModel_get picker)
         (mkWorld c (mkModels fm sel ms (QListWidget.mk its cur))))) = 0%nat) as Hquiet.
    { apply never_dispatches, never_nested, never_picker.
      intros e; destruct e; cbn; try tauto; discriminate. }
    destruct (nested _ _ _) as [[[m|]|e] [c1 [fm1 sel1 ms1 [its1 cur1]]] cs1].
    all: cbn [calls] in Hquiet.
    all: mcase; rewrite ?dispatches_app, ?Hquiet; cbn; lia.
  - unfold onDelete. destruct answer; mcase; cbn; lia.
  - unfold onAdvanced. mcase; cbn; lia.
  - unfold if_fromMain, onFields. mcase; cbn; lia.
  - unfold if_fromMain, onCards. mcase; cbn; lia.
Qed.

(** ** Renaming and adding *)

(** [remove_char] keeps the characters other than [c], in order. *)
Lemma remove_char_filter (c : ascii) (s : string) :
  list_ascii_of_string (Py.remove_char c s) =
  filter (λ a, a ≠ c) (list_ascii_of_string s).
Proof.
  induction s as [|a s IH]; [done|]. cbn [Py.remove_char list_ascii_of_string].
  rewrite filter_cons. destruct (Ascii.eqb_spec a c) as [->|Hne].
  - by rewrite decide_False by (by intros []).
  - rewrite decide_True by done. cbn. by rewrite IH.
Qed.

Lemma truthy_str_false (s : string) : Py.truthy_str s = false ↔ s = "".
Proof. by destruct s. Qed.

Lemma truthy_str_true (s : string) : Py.truthy_str s = true ↔ s ≠ "".
Proof. by destruct s. Qed.

(** C4, as amended.  When the current note type is [nt], the user accepts
    the prompt, and the text without its double quotes is not empty,
    [onRename] sets the name of [nt] to that stripped text, passes the note
    type to [models.save], then asks [models.all_use_counts] and rebuilds the
    list from its result. *)
Theorem onRename_saves_stripped_name (text : string) w nt (old : Val) :
  outcome (current_notetype w) = Returned (Some nt) →
  nt !! "name" = Some old →
  Py.remove_char Py.dquote text ≠ "" →
  let name := Py.remove_char Py.dquote text in
  let nt' := <["name" := VStr name]> nt in
  let r := onRename (text, true) w in
  outcome r = Returned tt ∧
  calls r = calls (current_notetype w) ++
            [EGetText actions_new_name old (text, true);
             EWithProgress; ESave nt'; EAllUseCounts; EOnDone] ∧
  nt' !! "name" = Some (VStr name) ∧
  (∀ key, key ≠ "name" → nt' !! key = nt !! key) ∧
  col (final r) = models_save nt' (col w) ∧
  mirrors (final r).
Proof.
  intros Hcur Hold Hname. cbn zeta. apply truthy_str_true in Hname.
  unfold onRename, mirrors. rewrite mbind_unfold.
  destruct (current_notetype w) as [[o|e] w1 cs1] eqn:Hrun; simplify_eq/=.
  assert (w1 = w) as ->.
  { rewrite current_notetype_run in Hrun. by destruct (Py.index _ _); simplify_eq. }
  mrun. rewrite Hold. mrun. rewrite Hname. mrun.
  split_and!; try done.
  - apply lookup_insert_eq.
  - intros key Hkey. by apply lookup_insert_ne.
Qed.

(** C9. [remove_char dquote] drops every double quote and nothing else, so
    the stripped text has none.  [onRename], when the current note type
    exists, the prompt is accepted and the stripped text is not empty, and
    [onAdd], when the picker returned a note type and the stripped text is
    not empty, store the stripped text as the name and pass the note type
    to [models.save].  No other name is ever saved: a note type that
    [onRename] saves is named by the stripped text, and so is one that
    [onAdd] saves unless the stripped text is empty (then no name is
    stored: the note type saved is the picker's).  A rename that is
    cancelled, or whose stripped text is empty, saves nothing and leaves the
    collection and the dialog as they were. *)
Theorem names_are_stored_without_double_quotes :
  (∀ s, list_ascii_of_string (Py.remove_char Py.dquote s) =
        filter (λ a, a ≠ Py.dquote) (list_ascii_of_string s)) ∧
  (∀ s, Py.dquote ∉ list_ascii_of_string (Py.remove_char Py.dquote s)) ∧
  (∀ text w nt (old : Val),
     outcome (current_notetype w) = Returned (Some nt) →
     nt !! "name" = Some old →
     Py.remove_char Py.dquote text ≠ "" →
     let nt' := <["name" := VStr (Py.remove_char Py.dquote text)]> nt in
     let r := onRename (text, true) w in
     outcome r = Returned tt ∧
     ESave nt' ∈ calls r ∧
     nt' !! "name" = Some (VStr (Py.remove_char Py.dquote text)) ∧
     col (final r) = models_save nt' (col w)) ∧
  (∀ picker text ok w (picked : NoteType) (old : Val),
     let p := nested (D:=Models) AddModel_new (AddModel__init__;; AddModel_get picker) w in
     outcome p = Returned (Some picked) →
     picked !! "name" = Some old →
     Py.remove_char Py.dquote text ≠ "" →
     let m' := <["name" := VStr (Py.remove_char Py.dquote text)]> picked in
     let r := onAdd picker (text, ok) w in
     outcome r = Returned tt ∧
     ESave m' ∈ calls r ∧
     m' !! "name" = Some (VStr (Py.remove_char Py.dquote text)) ∧
     col (final r) = models_save m' (col (final p))) ∧
  (∀ txt w (nt' : NoteType), ESave nt' ∈ calls (onRename txt w) →
     nt' !! "name" = Some (VStr (Py.remove_char Py.dquote txt.1))) ∧
  (∀ picker txt w (nt' : NoteType), ESave nt' ∈ calls (onAdd picker txt w) →
     if Py.truthy_str (Py.remove_char Py.dquote txt.1)
     then nt' !! "name" = Some (VStr (Py.remove_char Py.dquote txt.1))
     else outcome (nested (D:=Models) AddModel_new (AddModel__init__;; AddModel_get picker) w)
          = Returned (Some nt')) ∧
  (∀ txt w, txt.2 = false ∨ Py.remove_char Py.dquote txt.1 = "" →
     (∀ nt' : NoteType, ESave nt' ∉ calls (onRename txt w)) ∧
     final (onRename txt w) = w).
Proof.
  split_and!.
  - apply remove_char_filter.
  - intros s. rewrite remove_char_filter. by intros [? _]%list_elem_of_filter.
  - intros text w nt old Hcur Hold Hname. cbn zeta. apply truthy_str_true in Hname.
    unfold onRename. rewrite mbind_unfold.
    destruct (current_notetype w) as [[o|e] w1 cs1] eqn:Hrun; simplify_eq/=.
    assert (w1 = w) as ->.
    { rewrite current_notetype_run in Hrun. by destruct (Py.index _ _); simplify_eq. }
    mrun. rewrite Hold. mrun. rewrite Hname. mrun.
    split_and!; try done.
    + set_solver.
    + apply lookup_insert_eq.
  - intros picker text ok w picked old. cbn zeta. intros Hp Hold Hname.
    apply truthy_str_true in Hname.
    assert (Py.truthy_dict picked = true) as Hdict.
    { unfold Py.truthy_dict. apply negb_true_iff, Nat.eqb_neq.
      intros Hsize%map_size_empty_iff. subst picked. by rewrite lookup_empty in Hold. }
    unfold onAdd. rewrite mbind_unfold.
    destruct (nested _ _ w) as [[o|e] [c1 [fm sel ms [its cur]]] cs1];
      cbn [outcome final col] in *; simplify_eq.
    rewrite Hdict. mrun. rewrite Hold. mrun. rewrite Hname. mrun.
    split_and!; try done.
    + set_solver.
    + apply lookup_insert_eq.
  - intros [text ok] [c [fm sel ms [its cur]]] nt'. unfold onRename.
    destruct ok; mcase; intros Hin; set_unfold; destruct_or?; simplify_eq.
    apply lookup_insert_eq.
  - intros picker [text ok] w nt'. unfold onAdd. rewrite mbind_unfold.
    pose proof (never_nested (D:=Models) is_save AddModel_new _
                  (never_save_picker picker) w) as Hquiet.
    destruct (nested _ _ w) as [[[m|]|e] [c1 [fm sel ms [its cur]]] cs1].
    all: mcase; intros Hin; set_unfold; destruct_or?; simplify_eq.
    all: try (by exfalso; eapply Hquiet; [eassumption|]).
    + apply lookup_insert_eq.
    + done.
  - intros [text ok] [c [fm sel ms [its cur]]] Hno. unfold onRename. cbn in Hno.
    assert (ok && Py.truthy_str (Py.remove_char Py.dquote text) = false) as Hcond.
    { destruct Hno as [->| ->]; [done|]. by rewrite andb_false_r. }
    mcase; simplify_eq.
    all: split; [intros nt' Hin; set_unfold; naive_solver | done].
Qed.

(** ** The picker *)

Implicit Types (wa : World Col (AddModel Col)).

Lemma on_picker_list_run (f : QListWidget.t → QListWidget.t) wa :
  on_picker_list f wa =
  mkResult (Returned tt)
    (mkWorld (col wa)
       (mkAddModel (am_model (dlg wa)) (am_models (dlg wa)) (f (am_list (dlg wa))))) [].
Proof. reflexivity. Qed.

Lemma append_entry_run (e : AddEntry Col) wa :
  append_entry e wa =
  mkResult (Returned tt)
    (mkWorld (col wa)
       (mkAddModel (am_model (dlg wa)) (am_models (dlg wa) ++ [e]) (am_list (dlg wa)))) [].
Proof. reflexivity. Qed.

Lemma set_model_run nt wa :
  set_model nt wa =
  mkResult (Returned tt)
    (mkWorld (col wa) (mkAddModel (Some nt) (am_models (dlg wa)) (am_list (dlg wa)))) [].
Proof. reflexivity. Qed.
Hint Rewrite on_picker_list_run append_entry_run set_model_run : run.

(** The two loops of [__init__] append one row and one entry per element,
    in order. *)
Lemma for_stock (l : list (string * (Col → NoteType * Col))) wa :
  for_ l (λ '(name, func),
    on_picker_list (QListWidget.addItem (notetypes_add name));;
    append_entry (Stock func)) wa =
  mkResult (Returned tt)
    (mkWorld (col wa)
       (mkAddModel (am_model (dlg wa))
          (am_models (dlg wa) ++ map (λ p, Stock p.2) l)
          (QListWidget.mk
             (QListWidget.items (am_list (dlg wa)) ++ map (λ p, notetypes_add p.1) l)
             (QListWidget.current (am_list (dlg wa)))))) [].
Proof.
  revert wa. induction l as [|[name func] l IH]; intros [c [model entries [its cur]]];
    cbn [for_]; mrun.
  - by rewrite !app_nil_r.
  - rewrite IH. mrun. cbn [map]. by rewrite <- !app_assoc.
Qed.

Lemma for_clones (l : list (Val * NoteType)) wa :
  for_ l (λ '(name, m),
    on_picker_list (QListWidget.addItem (notetypes_clone name));;
    append_entry (Clone m)) wa =
  mkResult (Returned tt)
    (mkWorld (col wa)
       (mkAddModel (am_model (dlg wa))
          (am_models (dlg wa) ++ map (λ p, Clone p.2) l)
          (QListWidget.mk
             (QListWidget.items (am_list (dlg wa)) ++ map (λ p, notetypes_clone p.1) l)
             (QListWidget.current (am_list (dlg wa)))))) [].
Proof.
  revert wa. induction l as [|[name m] l IH]; intros [c [model entries [its cur]]];
    cbn [for_]; mrun.
  - by rewrite !app_nil_r.
  - rewrite IH. mrun. cbn [map]. by rewrite <- !app_assoc.
Qed.

(** [keyed] pairs every note type with its name, or raises KeyError at the
    first one that has none. *)
Lemma keyed_run (l : list NoteType) wa :
  keyed l wa =
  match mapM (λ m : NoteType, m !! "name") l with
  | Some ks => mkResult (Returned (zip ks l)) wa []
  | None => mkResult (Raised (KeyError "name")) wa []
  end.
Proof.
  induction l as [|m l IH]; cbn [keyed mapM]; [done|].
  mrun. destruct (m !! "name") as [k|]; mrun; [|done].
  rewrite IH. destruct (mapM _ l) as [ks|]; by mrun.
Qed.

(** X19. The picker [__init__] builds when every note type has a name and the
    names compare: the stock entries, then one clone entry per note type in
    the order of [sorted]; row 0 is asked for. *)
Lemma AddModel__init___run (c : Col) (ks : list Val) (clones : list (Val * NoteType)) :
  mapM (λ m : NoteType, m !! "name") (models_all c) = Some ks →
  Py.sorted_keyed (zip ks (models_all c)) = Some clones →
  AddModel__init__ (mkWorld c AddModel_new) =
  mkResult (Returned tt)
    (mkWorld c
       (mkAddModel None
          (map (λ p, Stock p.2) (get_stock_notetypes c) ++ map (λ p, Clone p.2) clones)
          (QListWidget.setCurrentRow 0
             (QListWidget.mk
                (map (λ p, notetypes_add p.1) (get_stock_notetypes c) ++
                 map (λ p, notetypes_clone p.1) clones) (-1)))))
    [EGetStockNotetypes; EAll].
Proof.
  intros Hks Hsorted. unfold AddModel__init__, sorted_by_name. mrun.
  rewrite for_stock. mrun. rewrite keyed_run, Hks. mrun. rewrite Hsorted. mrun.
  rewrite for_clones. by mrun.
Qed.

(** C5. Accepting the picker with a clone entry [(False, m)] selected
    returns what [models.copy(m)] returns, after the calls [models.copy(m)]
    and [models.setCurrent] of that copy, in this order; accepting with a
    stock entry [(True, func)] selected returns what [func(col)] builds, and
    the call of [func] is the only call: neither [models.copy] nor
    [models.setCurrent] is called. *)
Theorem AddModel_accept_copies_or_builds wa (e : AddEntry Col) :
  Py.index (am_models (dlg wa)) (QListWidget.currentRow (am_list (dlg wa))) = Some e →
  let r := AddModel_get (Accept None) wa in
  match e with
  | Clone m =>
      let copy := (models_copy m (col wa)).1 in
      outcome r = Returned (Some copy) ∧
      calls r = [ECopy m; ESetCurrent copy] ∧
      col (final r) = models_setCurrent copy (models_copy m (col wa)).2
  | Stock func =>
      outcome r = Returned (Some (func (col wa)).1) ∧
      calls r = [EStockFunc] ∧
      col (final r) = (func (col wa)).2
  end.
Proof.
  intros Hsel. destruct wa as [c [model entries [its cur]]].
  cbn [dlg am_models am_list QListWidget.currentRow QListWidget.current] in Hsel.
  unfold AddModel_get, AddModel_accept. mrun. rewrite Hsel.
  destruct e as [func|m]; mrun; cbn zeta; mrun; done.
Qed.

End Proofs.

(** ** Runs on the small collection *)

(** Why the ids of the cached entries are assumed non-zero where an id is
    looked up: were there note types A (id 5) and B (id 0),
    [Models(..., selected_notetype_id=0)] would end its initial load with row
    0 current, although the first entry with the id passed is row 1. *)
Lemma passed_id_zero_selects_row_zero :
  let c := InMemory.mk [(InMemory.notetype 5 "A", 0); (InMemory.notetype 0 "B", 0)] None false in
  let r := Models__init__ true (Some 0) [] c in
  outcome r = Returned tt ∧
  first_with_id 0 (models (dlg (final r))) = Some 1%nat ∧
  QListWidget.currentRow (modelsList (dlg (final r))) = 0.
Proof. vm_compute. done. Qed.

(** The general rule at work: the list shows A and B, the id of B was
    passed. *)
Lemma maybe_select_provided_notetype_selects_witness :
  let w := mkWorld InMemory.two
             (mkModels true (Some 2) (InMemory.all_use_counts InMemory.two)
                (QListWidget.mk (map row_text (InMemory.all_use_counts InMemory.two)) 0)) in
  length (QListWidget.items (modelsList (dlg w))) = length (models (dlg w)) ∧
  modelsList (dlg (final (maybe_select_provided_notetype w))) =
    QListWidget.mk (QListWidget.items (modelsList (dlg w))) 1.
Proof.
  intros w. split; [reflexivity|].
  exact (proj2 (proj2 (proj2 (proj2 (proj2
    (maybe_select_provided_notetype_selects w eq_refl)))))).
Defined.

(** C1 fails on the code.  The manager lists A and B; the user
    selects the last row and deletes B.  [updateModelsList] asks the
    rebuilt one-row list for row 1 again, which it does not have: no row is
    current afterwards ([currentRow] is -1, not a row of the cached list),
    and [current_notetype] then reads [self.models[-1]], the last entry. *)
Theorem delete_last_row_leaves_no_current_row :
  let r := Models__init__ true None [ClickRow 1; ClickDelete true] InMemory.two in
  outcome r = Returned tt ∧
  length (models (dlg (final r))) = 1%nat ∧
  QListWidget.currentRow (modelsList (dlg (final r))) = -1 ∧
  ¬ row_in_range (dlg (final r)) ∧
  outcome (current_notetype (final r)) = Returned (Some (InMemory.notetype 1 "A")).
Proof.
  cbn zeta. split_and!; try (vm_compute; reflexivity).
  unfold row_in_range. vm_compute. intros [H _]. by apply H.
Qed.

(** C4, as stated, fails when the text has a double quote: the user enters
    the three characters a, double quote, b and accepts; the note type passed
    to [models.save] is named ab, not the text entered. *)
Lemma onRename_does_not_store_entered_text :
  let text := String "a" (String Py.dquote "b") in
  let r := onRename (text, true) (InMemory.showing InMemory.two 0) in
  ∃ nt' : NoteType,
    calls r !! 3%nat = Some (ESave nt') ∧
    nt' !! "name" = Some (VStr "ab") ∧
    nt' !! "name" ≠ Some (VStr text).
Proof.
  cbn zeta. eexists. split_and!; [vm_compute; reflexivity | vm_compute; reflexivity |].
  vm_compute. discriminate.
Qed.

(** The theorem at work: row A is current and the user enters C. *)
Lemma onRename_saves_stripped_name_witness :
  let w := InMemory.showing InMemory.two 0 in
  let nt' := <["name" := VStr "C"]> (InMemory.notetype 1 "A") in
  (outcome (current_notetype w) = Returned (Some (InMemory.notetype 1 "A")) ∧
   InMemory.notetype 1 "A" !! "name" = Some (VStr "A") ∧
   Py.remove_char Py.dquote "C" ≠ "") ∧
  calls (onRename ("C"%string, true) w) =
    calls (current_notetype w) ++
    [EGetText actions_new_name (VStr "A") ("C"%string, true);
     EWithProgress; ESave nt'; EAllUseCounts; EOnDone].
Proof.
  intros w nt'.
  assert (outcome (current_notetype w) = Returned (Some (InMemory.notetype 1 "A"))) as H1
    by (vm_compute; reflexivity).
  assert (InMemory.notetype 1 "A" !! "name" = Some (VStr "A")) as H2
    by (vm_compute; reflexivity).
  assert (Py.remove_char Py.dquote "C" ≠ "") as H3 by (vm_compute; discriminate).
  split; [done|].
  exact (proj1 (proj2 (onRename_saves_stripped_name "C" w _ _ H1 H2 H3))).
Defined.

(** The picker over A and B: one stock row, then the clones by name. *)
Example picker_rows :
  let r := AddModel__init__ (mkWorld InMemory.two AddModel_new) in
  outcome r = Returned tt ∧
  calls r = [EGetStockNotetypes; EAll] ∧
  am_models (dlg (final r)) =
    [Stock InMemory.basic; Clone (InMemory.notetype 1 "A"); Clone (InMemory.notetype 2 "B")] ∧
  am_list (dlg (final r)) = QListWidget.mk ["Add: Basic"; "Clone: A"; "Clone: B"] 0.
Proof. vm_compute. done. Qed.

(** The theorem at work: the picker as opened (the stock row is current),
    and after a click on the row of B. *)
Lemma AddModel_accept_copies_or_builds_witness :
  let opened := final (AddModel__init__ (mkWorld InMemory.two AddModel_new)) in
  let clicked := final (on_picker_list (QListWidget.click 2) opened) in
  (Py.index (am_models (dlg opened)) (QListWidget.currentRow (am_list (dlg opened)))
     = Some (Stock InMemory.basic) ∧
   calls (AddModel_get (Accept None) opened) = [EStockFunc]) ∧
  (Py.index (am_models (dlg clicked)) (QListWidget.currentRow (am_list (dlg clicked)))
     = Some (Clone (InMemory.notetype 2 "B")) ∧
   calls (AddModel_get (Accept None) clicked) =
     [ECopy (InMemory.notetype 2 "B");
      ESetCurrent (InMemory.copy (InMemory.notetype 2 "B") InMemory.two).1]).
Proof.
  intros opened clicked.
  assert (Py.index (am_models (dlg opened)) (QListWidget.currentRow (am_list (dlg opened)))
          = Some (Stock InMemory.basic)) as H1 by (vm_compute; reflexivity).
  assert (Py.index (am_models (dlg clicked)) (QListWidget.currentRow (am_list (dlg clicked)))
          = Some (Clone (InMemory.notetype 2 "B"))) as H2 by (vm_compute; reflexivity).
  split; (split; [done|]).
  - exact (proj1 (proj2 (AddModel_accept_copies_or_builds opened _ H1))).
  - exact (proj1 (proj2 (AddModel_accept_copies_or_builds clicked _ H2))).
Defined.

(** [onDelete] on the small collection, row B selected: confirmed, the calls
    are the question, the schema check, the read of the note type, and the
    task that removes it and reloads the list; declined, the question is the
    only call and nothing changes. *)
Example onDelete_runs :
  let w := InMemory.showing InMemory.two 1 in
  calls (onDelete true w) =
    [EAskUser notetypes_delete_this_unused_note_type true; EModSchema true; EGet 2;
     EWithProgress; ERem (Some (InMemory.notetype 2 "B")); EAllUseCounts; EOnDone] ∧
  onDelete false w =
    mkResult (Returned tt) w [EAskUser notetypes_delete_this_unused_note_type false].
Proof. vm_compute. done. Qed.

(** The theorem at work: the removal of B is the fifth call. *)
Lemma onDelete_modSchema_before_rem_witness :
  let w := InMemory.showing InMemory.two 1 in
  calls (onDelete true w) !! 4%nat = Some (ERem (Some (InMemory.notetype 2 "B"))) ∧
  ∃ j k m, (j < k < 4)%nat ∧
    calls (onDelete true w) !! j = Some (EModSchema true) ∧
    calls (onDelete true w) !! k = Some (EGet (NoteTypeNameIDUseCount.id m)) ∧
    Py.index (models (dlg w)) (QListWidget.current (modelsList (dlg w))) = Some m ∧
    ∃ c', modSchema true (col w) = Some c' ∧
      Some (InMemory.notetype 2 "B") = models_get (NoteTypeNameIDUseCount.id m) c'.
Proof.
  intros w.
  assert (calls (onDelete true w) !! 4%nat = Some (ERem (Some (InMemory.notetype 2 "B"))))
    as H4 by (vm_compute; reflexivity).
  split; [done|].
  exact (onDelete_modSchema_before_rem true w 4 _ H4).
Defined.

(** The theorem at work: a collection with the single note type A. *)
Lemma onDelete_needs_two_notetypes_witness :
  let w := InMemory.showing (InMemory.mk [(InMemory.notetype 1 "A", 0)] None false) 0 in
  (length (models (dlg w)) < 2)%nat ∧
  onDelete true w =
    mkResult (Returned tt) w [EShowInfo notetypes_please_add_another_note_type_first].
Proof.
  intros w.
  assert (length (models (dlg w)) < 2)%nat as Hlen by (vm_compute; lia).
  split; [done|]. exact (onDelete_needs_two_notetypes true w Hlen).
Defined.

(** [onAdd] on the small collection: the user clones B and enters the three
    characters x, double quote, y; the copy is made current, renamed xy and
    saved, and the list is reloaded with it. *)
Example onAdd_runs :
  let copy := (InMemory.copy (InMemory.notetype 2 "B") InMemory.two).1 in
  let r := onAdd (Accept (Some 2%nat)) (String "x" (String Py.dquote "y"), true)
             (InMemory.showing InMemory.two 0) in
  outcome r = Returned tt ∧
  calls r = [EGetStockNotetypes; EAll; ECopy (InMemory.notetype 2 "B"); ESetCurrent copy;
             EGetText actions_name (VStr "B copy") (String "x" (String Py.dquote "y"), true);
             EWithProgress; ESave (<["name" := VStr "xy"]> copy); EAllUseCounts; EOnDone] ∧
  map NoteTypeNameIDUseCount.name (models (dlg (final r))) = ["A"; "B"; "xy"].
Proof. vm_compute. done. Qed.

(** * Further properties of the handlers *)

#[export] Hint Rewrite @on_modelsList_run @for_addItem @updateModelsList_run
  @current_notetype_run @saveAndRefresh_run @maybe_select_provided_notetype_run
  @on_picker_list_run @append_entry_run @set_model_run @for_stock @for_clones
  @keyed_run : run.

Section Further.

Context {Col : Type} `{!Collection Col} `{!Translation}.

Implicit Types (w : World Col Models) (nt : NoteType) (m : Entry).

(** ** The selection across a refresh *)

(** X2. A refresh keeps the selected row index when the new list is not
    shorter than the old one: a row that was in range stays current and in
    range. *)
Theorem updateModelsList_keeps_row_in_range (notetypes : list Entry) w :
  row_in_range (dlg w) →
  (length (models (dlg w)) ≤ length notetypes)%nat →
  let w' := final (updateModelsList notetypes w) in
  QListWidget.currentRow (modelsList (dlg w')) = QListWidget.currentRow (modelsList (dlg w)) ∧
  row_in_range (dlg w').
Proof.
  intros [Hlo Hhi] Hlen. cbn zeta. unfold row_in_range.
  rewrite updateModelsList_run.
  destruct w as [c [fm sel ms [its cur]]].
  unfold remembered_row, QListWidget.setCurrentRow, QListWidget.has_row.
  cbn [dlg models modelsList final QListWidget.current QListWidget.currentRow
       QListWidget.items] in *.
  rewrite length_map.
  rewrite (bool_decide_false (cur = -1)) by lia.
  rewrite bool_decide_true by lia. lia.
Qed.

(** X3. [current_notetype] indexes the cached list the way Python does and
    changes nothing: a row from 0 reads that entry, a negative row down to
    [-len] reads from the end (so with no current row, -1, it reads the last
    entry), and any other row, or an empty list, raises IndexError before
    any call is made. *)
Theorem current_notetype_reads w :
  let row := QListWidget.current (modelsList (dlg w)) in
  let l := models (dlg w) in
  let n := Z.of_nat (length l) in
  let reads i :=
    ∃ m, l !! i = Some m ∧
      current_notetype w =
      mkResult (Returned (models_get (NoteTypeNameIDUseCount.id m) (col w))) w
        [EGet (NoteTypeNameIDUseCount.id m)] in
  final (current_notetype w) = w ∧
  (0 ≤ row < n → reads (Z.to_nat row)) ∧
  (- n ≤ row < 0 → reads (Z.to_nat (n + row))) ∧
  (row = -1 → l ≠ [] → reads (length l - 1)%nat) ∧
  (row < - n ∨ n ≤ row → current_notetype w = mkResult (Raised IndexError) w []).
Proof.
  cbn zeta. rewrite current_notetype_run. unfold Py.index.
  destruct w as [c [fm sel ms [its cur]]].
  cbn [dlg models modelsList col QListWidget.current].
  split_and!.
  - repeat case_bool_decide; repeat case_match; done.
  - intros [Hlo Hhi]. rewrite bool_decide_true by done.
    destruct (ms !! Z.to_nat cur) as [m|] eqn:Hm; [by eexists|].
    apply lookup_ge_None in Hm. lia.
  - intros [Hlo Hhi]. rewrite bool_decide_false, bool_decide_true by lia.
    destruct (ms !! Z.to_nat _) as [m|] eqn:Hm; [by eexists|].
    apply lookup_ge_None in Hm. lia.
  - intros -> Hne. rewrite bool_decide_false by lia.
    assert (length ms ≠ 0%nat) by (by destruct ms).
    rewrite bool_decide_true by lia.
    replace (Z.to_nat (Z.of_nat (length ms) + -1)) with (length ms - 1)%nat by lia.
    destruct (ms !! _) as [m|] eqn:Hm; [by eexists|].
    apply lookup_ge_None in Hm. lia.
  - intros [Hlo|Hhi].
    + by rewrite !bool_decide_false by lia.
    + rewrite bool_decide_true by lia.
      by rewrite (proj2 (lookup_ge_None ms (Z.to_nat cur))) by lia.
Qed.

(** ** The initial load and the invariant of the rows *)

Lemma tidy_refreshed (fm : bool) (sel : option NoteTypeID) (l : list Entry) (row : Z) :
  tidy (mkModels fm sel l
          (QListWidget.setCurrentRow row (QListWidget.mk (map row_text l) (-1)))).
Proof.
  unfold tidy, QListWidget.setCurrentRow, QListWidget.has_row. cbn.
  rewrite length_map. split; [done|]. case_bool_decide; [by right|by left].
Qed.

Lemma tidy_setCurrentRow (fm : bool) (sel : option NoteTypeID) (l : list Entry)
    (lw : QListWidget.t) (row : Z) :
  tidy (mkModels fm sel l lw) →
  tidy (mkModels fm sel l (QListWidget.setCurrentRow row lw)).
Proof.
  intros [Hrows _]. unfold tidy, QListWidget.setCurrentRow, QListWidget.has_row in *.
  cbn in *. split; [done|]. rewrite Hrows, length_map.
  case_bool_decide; [by right|by left].
Qed.

Lemma tidy_click (fm : bool) (sel : option NoteTypeID) (l : list Entry)
    (lw : QListWidget.t) (row : nat) :
  tidy (mkModels fm sel l lw) →
  tidy (mkModels fm sel l (QListWidget.click row lw)).
Proof.
  intros [Hrows Hcur]. unfold tidy, QListWidget.click, QListWidget.has_row in *.
  cbn in *. case_bool_decide as Hrow; cbn; [|done].
  split; [done|]. right. by rewrite Hrows, length_map in Hrow.
Qed.

(** X4. Opening the manager takes the undo checkpoint, passes the buttons
    through the hook and then loads the list once, in this order: the calls
    are the checkpoint, the hook, the dispatch, [models.all_use_counts] and
    the callback.  The collection afterwards is the one the checkpoint left:
    the load only reads it.  The dialog mirrors that collection, and if it
    has at least one note type a row of the list is selected. *)
Theorem Models__init___loads (from_main : bool) (selected : option NoteTypeID) (c : Col) :
  let r := Models__init__ from_main selected [] c in
  outcome r = Returned tt ∧
  calls r = [ECheckpoint; EButtonsHook; EWithProgress; EAllUseCounts; EOnDone] ∧
  col (final r) = mw_checkpoint c ∧
  mirrors (final r) ∧
  tidy (dlg (final r)) ∧
  (models_all_use_counts (mw_checkpoint c) ≠ [] → row_in_range (dlg (final r))).
Proof.
  cbn zeta. unfold Models__init__, setupModels, exec_, Models_new, mirrors. mrun.
  cbn [for_]. mrun. unfold remembered_row. cbn [QListWidget.current].
  rewrite bool_decide_true by done.
  set (l := models_all_use_counts (mw_checkpoint c)).
  assert (l ≠ [] →
    QListWidget.setCurrentRow 0 (QListWidget.mk (map row_text l) (-1)) =
    QListWidget.mk (map row_text l) 0) as Hzero.
  { intros Hne. unfold QListWidget.setCurrentRow, QListWidget.has_row. cbn.
    rewrite length_map, bool_decide_true; [done|]. destruct l; [done|cbn; lia]. }
  split_and!; try done.
  - by destruct selected as [wanted|]; [case_bool_decide; [|destruct (first_with_id _ _)]|].
  - destruct selected as [wanted|]; [case_bool_decide; [|destruct (first_with_id _ _)]|].
    all: first [apply tidy_refreshed | apply tidy_setCurrentRow, tidy_refreshed].
  - intros Hne. unfold row_in_range.
    cbn [dlg models modelsList QListWidget.currentRow].
    rewrite (Hzero Hne).
    assert (0 < Z.of_nat (length l)) by (destruct l; [done|cbn; lia]).
    destruct selected as [wanted|]; [case_bool_decide|].
    2: destruct (first_with_id wanted l) as [k|] eqn:Hk;
         [apply first_with_id_lt in Hk as [Hk _]|].
    all: unfold QListWidget.setCurrentRow, QListWidget.has_row; cbn;
         rewrite ?length_map; try case_bool_decide; cbn; lia.
Qed.

(** A nested dialog leaves the attributes of the dialog that opened it. *)
Lemma dlg_nested {D D' A} (init : D') (mn : M (World Col D') A) (wd : World Col D) :
  dlg (final (nested init mn wd)) = dlg wd.
Proof. unfold nested. by destruct (mn _). Qed.

(** X5. Every handler keeps the rows in step with the cache: if the widget
    shows the cached list (one row per entry, the current row none or one of
    them) before something the user does, it does so afterwards, whether the
    handler returns or raises; hence also after any sequence of operations. *)
Theorem exec__keeps_tidy (ops : list UserOp) w :
  tidy (dlg w) → tidy (dlg (final (exec_ ops w))).
Proof.
  assert (∀ op w, tidy (dlg w) → tidy (dlg (final (handle op w)))) as Hone.
  { clear w. intros op [c [fm sel ms [its cur]]] Hw. cbn [dlg] in Hw.
    destruct op as [row|row [text ok]|[text ok]|picker [text ok]|answer|answer| |];
      cbn [handle].
    - mrun. by apply tidy_click.
    - unfold onRename. destruct ok; mcase;
        first [done | apply tidy_refreshed | by apply tidy_click].
    - unfold onRename. destruct ok; mcase; first [done | apply tidy_refreshed].
    - unfold onAdd. rewrite mbind_unfold.
      assert (dlg (final (nested (D:=Models) AddModel_new
                (AddModel__init__;; AddModel_get picker)
                (mkWorld c (mkModels fm sel ms (QListWidget.mk its cur)))))
              = mkModels fm sel ms (QListWidget.mk its cur)) as Hdlg.
      { apply dlg_nested. }
      destruct (nested _ _ _) as [[[m|]|e] [c1 d1] cs1]; cbn [final dlg] in Hdlg; subst d1.
      all: mcase; first [done | apply tidy_refreshed].
    - unfold onDelete. destruct answer; mcase; first [done | apply tidy_refreshed].
    - unfold onAdvanced. mcase; first [done | apply tidy_refreshed].
    - unfold if_fromMain, onFields. mcase; done.
    - unfold if_fromMain, onCards. mcase; done. }
  unfold exec_. revert w. induction ops as [|op ops IH]; intros w Hw; cbn [for_]; [done|].
  rewrite bind_unfold. specialize (Hone op w Hw).
  destruct (handle op w) as [[[]|e] w1 cs1]; cbn [final] in Hone; [|done].
  rewrite final_after. by apply IH.
Qed.

(** X6. With the rows in step with a non-empty cache, [current_notetype]
    never raises IndexError: it asks [models.get] for the id of a cached
    entry. *)
Theorem current_notetype_finds_an_entry w :
  tidy (dlg w) →
  models (dlg w) ≠ [] →
  ∃ m, m ∈ models (dlg w) ∧
    current_notetype w =
    mkResult (Returned (models_get (NoteTypeNameIDUseCount.id m) (col w))) w
      [EGet (NoteTypeNameIDUseCount.id m)].
Proof.
  intros [_ Hcur] Hne. rewrite current_notetype_run. unfold Py.index.
  destruct w as [c [fm sel ms [its cur]]].
  cbn [dlg models modelsList col QListWidget.current] in *.
  assert (length ms ≠ 0%nat) by (by destruct ms).
  destruct Hcur as [->|Hrow].
  - rewrite bool_decide_false, bool_decide_true by lia.
    destruct (ms !! Z.to_nat _) as [m|] eqn:Hm.
    + exists m. split; [by eapply list_elem_of_lookup_2|done].
    + apply lookup_ge_None in Hm. lia.
  - rewrite bool_decide_true by lia.
    destruct (ms !! Z.to_nat cur) as [m|] eqn:Hm.
    + exists m. split; [by eapply list_elem_of_lookup_2|done].
    + apply lookup_ge_None in Hm. lia.
Qed.

(** ** Deleting, continued *)

(** X7. When the schema check refuses, [onDelete] stops there: the
    exception AbortSchemaModification leaves the handler after the question
    and the check, nothing is read or removed, no task is dispatched, and
    the collection and the dialog are as before. *)
Theorem onDelete_aborted_by_schema_check w m :
  (2 ≤ length (models (dlg w)))%nat →
  Py.index (models (dlg w)) (QListWidget.current (modelsList (dlg w))) = Some m →
  modSchema true (col w) = None →
  onDelete true w =
  mkResult (Raised AbortSchemaModification) w
    [EAskUser (if Py.truthy_int (NoteTypeNameIDUseCount.use_count m)
               then notetypes_delete_this_note_type_and_all
               else notetypes_delete_this_unused_note_type) true;
     EModSchema true].
Proof.
  intros Hlen Hm Hschema. destruct w as [c [fm sel ms [its cur]]].
  cbn [dlg col models modelsList QListWidget.current] in *.
  unfold onDelete. mrun. rewrite bool_decide_false by lia.
  mrun. rewrite Hm. mrun. rewrite Hschema. by mrun.
Qed.

(** X8. The question [onDelete] asks is chosen by the use count of the
    entry at the current row: the wording for a note type with notes when
    the count is not zero, the wording for an unused one when it is; and it
    is asked at most once per run. *)
Theorem onDelete_question (answer : bool) w :
  let r := onDelete answer w in
  ∀ i msg a, calls r !! i = Some (EAskUser msg a) →
    i = 0%nat ∧ a = answer ∧
    ∃ m, Py.index (models (dlg w)) (QListWidget.current (modelsList (dlg w))) = Some m ∧
      msg = if bool_decide (NoteTypeNameIDUseCount.use_count m = 0)
            then notetypes_delete_this_unused_note_type
            else notetypes_delete_this_note_type_and_all.
Proof.
  destruct w as [c [fm sel ms [its cur]]]. cbn zeta.
  unfold onDelete, Py.truthy_int. destruct answer; mcase.
  all: intros i msg a Hi; at_index i.
  all: split_and!; try done; eexists; split; [done|].
  all: repeat match goal with
       | H : negb _ = true |- _ => apply negb_true_iff in H
       | H : negb _ = false |- _ => apply negb_false_iff in H
       | H : (_ =? _) = true |- _ => apply Z.eqb_eq in H
       | H : (_ =? _) = false |- _ => apply Z.eqb_neq in H
       end.
  all: first [by rewrite bool_decide_true | by rewrite bool_decide_false].
Qed.

(** X9. A confirmed delete that gets past the schema check removes the note
    type [models.get] returned for the current row, from the collection the
    check left, and reloads the list from the result: afterwards the dialog
    mirrors the collection. *)
Theorem onDelete_removes_current w m (c' : Col) nt :
  (2 ≤ length (models (dlg w)))%nat →
  Py.index (models (dlg w)) (QListWidget.current (modelsList (dlg w))) = Some m →
  modSchema true (col w) = Some c' →
  models_get (NoteTypeNameIDUseCount.id m) c' = Some nt →
  let r := onDelete true w in
  outcome r = Returned tt ∧
  col (final r) = models_rem nt c' ∧
  mirrors (final r) ∧
  tidy (dlg (final r)).
Proof.
  intros Hlen Hm Hschema Hget. destruct w as [c [fm sel ms [its cur]]].
  cbn [dlg col models modelsList QListWidget.current] in *. cbn zeta.
  unfold onDelete, mirrors. mrun. rewrite bool_decide_false by lia.
  mrun. rewrite Hm. mrun. rewrite Hschema. mrun. rewrite Hm. mrun. rewrite Hget. mrun.
  split_and!; try done. apply tidy_refreshed.
Qed.

(** ** Adding, continued *)

(** X10. The picker makes only these calls, whatever the user does in it:
    [get_stock_notetypes], [models.all], a stock function, [models.copy],
    [models.setCurrent].  It never saves or removes a note type and never
    dispatches a task. *)
Theorem picker_calls (picker : PickerUser) (wa : World Col (AddModel Col)) :
  Forall picker_event (calls ((AddModel__init__;; AddModel_get picker) wa)).
Proof.
  apply Forall_forall. intros e He.
  pose proof (never_picker (λ e, ¬ picker_event e) picker) as Hnever.
  destruct e; cbn; try exact I.
  all: exfalso; eapply Hnever; [tauto | exact He | cbn; tauto].
Qed.

(** X11. Closing the picker without accepting ends [onAdd] there: no name
    is asked for, nothing is saved or dispatched, and the collection and
    the dialog are as before; the picker only read the stock list and the
    note types. *)
Theorem onAdd_cancelled (txt : string * bool) w :
  let r := onAdd Cancel txt w in
  final r = w ∧
  Forall (λ e, e = EGetStockNotetypes ∨ e = EAll) (calls r) ∧
  (outcome r = Returned tt ∨ outcome r = Raised (KeyError "name") ∨
   outcome r = Raised TypeError).
Proof.
  destruct w as [c [fm sel ms [its cur]]]. cbn zeta.
  unfold onAdd, nested, AddModel__init__, AddModel_get, sorted_by_name, AddModel_new.
  mcase.
  all: split_and!; [done| |by eauto].
  all: repeat (apply Forall_cons; split; [by eauto|]); by apply Forall_nil.
Qed.

Lemma truthy_dict_lookup (d : NoteType) (key : string) (v : Val) :
  d !! key = Some v → Py.truthy_dict d = true.
Proof.
  intros Hv. unfold Py.truthy_dict. apply negb_true_iff, Nat.eqb_neq.
  intros Hsize%map_size_empty_iff. subst d. by rewrite lookup_empty in Hv.
Qed.

(** X12. Once the picker has returned a note type, [onAdd] always saves it
    and reloads the list, whether the name prompt was accepted or cancelled
    (the flag [getText] returns is not looked at): the name is replaced by
    the stripped text when that is not empty and kept otherwise. *)
Theorem onAdd_saves_picked_notetype (picker : PickerUser) (text : string) (ok : bool) w
    (picked : NoteType) (old : Val) :
  let p := nested (D:=Models) AddModel_new (AddModel__init__;; AddModel_get picker) w in
  outcome p = Returned (Some picked) →
  picked !! "name" = Some old →
  let stripped := Py.remove_char Py.dquote text in
  let saved := if Py.truthy_str stripped then <["name" := VStr stripped]> picked
               else picked in
  let r := onAdd picker (text, ok) w in
  outcome r = Returned tt ∧
  calls r = calls p ++
            [EGetText actions_name old (text, ok);
             EWithProgress; ESave saved; EAllUseCounts; EOnDone] ∧
  col (final r) = models_save saved (col (final p)) ∧
  mirrors (final r) ∧
  final (onAdd picker (text, negb ok) w) = final r.
Proof.
  cbn zeta. intros Hp Hold. unfold onAdd, mirrors. rewrite !mbind_unfold.
  pose proof (dlg_nested AddModel_new (AddModel__init__;; AddModel_get picker) w) as Hdlg.
  destruct (nested _ _ w) as [[o|e] [c1 d1] cs1]; cbn [outcome final dlg] in *;
    simplify_eq.
  rewrite (truthy_dict_lookup _ _ _ Hold).
  destruct w as [c [fm sel ms [its cur]]]. cbn [dlg].
  mrun. rewrite Hold. mrun.
  destruct (Py.truthy_str _); mrun; done.
Qed.

(** ** The options dialog, fields and cards *)

(** X13. [onAdvanced] shows the options dialog with the note type's LaTeX
    settings ([latexsvg] defaults to False when the key is missing), then
    writes the three settings from the dialog, leaves every other key of
    the note type alone, saves it and reloads the list.  It saves whatever
    the user did in the dialog: the result of [exec_] is not looked at. *)
Theorem onAdvanced_saves_options (answer : OptionsAnswer) w nt (pre post title : Val) :
  outcome (current_notetype w) = Returned (Some nt) →
  nt !! "latexPre" = Some pre →
  nt !! "latexPost" = Some post →
  nt !! "name" = Some title →
  let svg := default (VBool false) (nt !! "latexsvg") in
  let nt' := <["latexPost" := VStr (latexFooter_text answer)]>
               (<["latexPre" := VStr (latexHeader_text answer)]>
                  (<["latexsvg" := VBool (latexsvg_checked answer)]> nt)) in
  let r := onAdvanced answer w in
  outcome r = Returned tt ∧
  calls r = calls (current_notetype w) ++
            [EOptionsDialog svg pre post title answer;
             EWithProgress; ESave nt'; EAllUseCounts; EOnDone] ∧
  (∀ key, key ≠ "latexsvg" → key ≠ "latexPre" → key ≠ "latexPost" →
     nt' !! key = nt !! key) ∧
  col (final r) = models_save nt' (col w) ∧
  mirrors (final r).
Proof.
  intros Hcur Hpre Hpost Htitle. cbn zeta.
  unfold onAdvanced, mirrors. rewrite mbind_unfold.
  destruct (current_notetype w) as [[o|e] w1 cs1] eqn:Hrun; simplify_eq/=.
  assert (w1 = w) as ->.
  { rewrite current_notetype_run in Hrun. by destruct (Py.index _ _); simplify_eq. }
  mrun. rewrite Hpre. mrun. rewrite Hpost. mrun. rewrite Htitle. mrun.
  split_and!; try done.
  intros key H1 H2 H3. by rewrite !lookup_insert_ne.
Qed.

(** X14. When the current note type lacks one of the keys [onAdvanced]
    subscripts ([latexPre], [latexPost], [name]), the handler raises
    KeyError for a missing key before the dialog is shown: nothing is
    saved, and the collection and the dialog are as before. *)
Theorem onAdvanced_missing_key (answer : OptionsAnswer) w nt :
  outcome (current_notetype w) = Returned (Some nt) →
  nt !! "latexPre" = None ∨ nt !! "latexPost" = None ∨ nt !! "name" = None →
  let r := onAdvanced answer w in
  (∃ key, outcome r = Raised (KeyError key) ∧ nt !! key = None) ∧
  calls r = calls (current_notetype w) ∧
  final r = w.
Proof.
  intros Hcur Hmissing. cbn zeta.
  unfold onAdvanced. rewrite mbind_unfold.
  destruct (current_notetype w) as [[o|e] w1 cs1] eqn:Hrun; simplify_eq/=.
  assert (w1 = w) as ->.
  { rewrite current_notetype_run in Hrun. by destruct (Py.index _ _); simplify_eq. }
  mrun.
  destruct (nt !! "latexPre") as [pre|] eqn:Hpre; mrun;
    [|by rewrite app_nil_r; eauto].
  destruct (nt !! "latexPost") as [post|] eqn:Hpost; mrun;
    [|by rewrite app_nil_r; eauto].
  destruct (nt !! "name") as [title|] eqn:Htitle; mrun;
    [|by rewrite app_nil_r; eauto].
  naive_solver.
Qed.

(** X15. [onFields] and [onCards] never touch the cached list or the list
    widget and never dispatch a task, whether they return or raise: after
    the dialog they open has changed the collection, the list is not
    reloaded. *)
Theorem onFields_onCards_leave_the_list w :
  dlg (final (onFields w)) = dlg w ∧
  dlg (final (onCards w)) = dlg w ∧
  dispatches (calls (onFields w)) = 0%nat ∧
  dispatches (calls (onCards w)) = 0%nat ∧
  (∀ nt, outcome (current_notetype w) = Returned (Some nt) →
     col (final (onFields w)) = FieldDialog nt (col w) ∧
     col (final (onCards w)) = CardLayout nt (col w)).
Proof.
  destruct w as [c [fm sel ms [its cur]]].
  unfold onFields, onCards. split_and!.
  1-4: by mcase.
  intros nt. mrun. destruct (Py.index ms cur) as [m|]; mrun; [|done].
  intros [= ->]. by mrun.
Qed.

(** ** The picker's rows, continued *)

(** X17. When some note type of the collection has no [name], opening the
    picker raises KeyError while [sorted] computes its keys: the stock rows
    are there, no clone row has been added, and the collection is
    untouched. *)
Theorem AddModel__init___unnamed_notetype (c : Col) :
  mapM (λ nt : NoteType, nt !! "name") (models_all c) = None →
  AddModel__init__ (mkWorld c AddModel_new) =
  mkResult (Raised (KeyError "name"))
    (mkWorld c
       (mkAddModel None (map (λ p, Stock p.2) (get_stock_notetypes c))
          (QListWidget.mk (map (λ p, notetypes_add p.1) (get_stock_notetypes c)) (-1))))
    [EGetStockNotetypes; EAll].
Proof.
  intros Hks. unfold AddModel__init__, sorted_by_name, AddModel_new. mrun.
  rewrite Hks. by mrun.
Qed.

(** ** The selection after the initial load *)

(** C10. The note types of a collection have non-zero ids.  After the
    initial load of such a list, [maybe_select_provided_notetype] makes no
    call and changes nothing but the current row: with no id passed it
    selects row 0 ([setCurrentRow(0)]; row 0 is current whenever the list
    has a row); with an id passed that some cached entry has, the first such
    row is current afterwards; with an id passed that no cached entry has,
    the list widget, and so the selection, is as before. *)
Theorem maybe_select_provided_notetype_after_load (from_main : bool)
    (selected : option NoteTypeID) (c : Col) (l : list Entry) :
  Forall (λ m, NoteTypeNameIDUseCount.id m ≠ 0) l →
  let loaded := final (updateModelsList l (mkWorld c (Models_new from_main selected))) in
  let r := maybe_select_provided_notetype loaded in
  let lw := modelsList (dlg loaded) in
  let lw' := modelsList (dlg (final r)) in
  outcome r = Returned tt ∧ calls r = [] ∧ col (final r) = c ∧
  models (dlg (final r)) = l ∧
  QListWidget.items lw' = map row_text l ∧
  match selected with
  | None =>
      lw' = QListWidget.setCurrentRow 0 lw ∧
      (l ≠ [] → QListWidget.currentRow lw' = 0)
  | Some wanted =>
      (∀ i m, l !! i = Some m → NoteTypeNameIDUseCount.id m = wanted →
         (∀ j m', (j < i)%nat → l !! j = Some m' → NoteTypeNameIDUseCount.id m' ≠ wanted) →
         QListWidget.currentRow lw' = Z.of_nat i) ∧
      ((∀ m, m ∈ l → NoteTypeNameIDUseCount.id m ≠ wanted) → lw' = lw)
  end.
Proof.
  intros Hids. cbn zeta.
  rewrite maybe_select_provided_notetype_run, updateModelsList_run.
  unfold Models_new, remembered_row.
  cbn [final dlg col models modelsList selected_notetype_id fromMain outcome calls
       QListWidget.new QListWidget.current].
  rewrite (bool_decide_true (-1 = -1)) by done.
  set (lw := QListWidget.setCurrentRow 0 (QListWidget.mk (map row_text l) (-1))).
  assert (QListWidget.setCurrentRow 0 lw = lw) as Hidem.
  { unfold lw, QListWidget.setCurrentRow, QListWidget.has_row. cbn.
    by case_bool_decide. }
  assert (∀ row, QListWidget.items (QListWidget.setCurrentRow row lw) = map row_text l)
    as Hitems by done.
  assert (∀ i : nat, (i < length l)%nat →
            QListWidget.currentRow (QListWidget.setCurrentRow (Z.of_nat i) lw) = Z.of_nat i)
    as Hrow.
  { intros i Hi. unfold lw, QListWidget.setCurrentRow, QListWidget.has_row. cbn.
    rewrite length_map, bool_decide_true; [done|lia]. }
  destruct selected as [wanted|].
  - case_bool_decide as Hzero.
    + subst wanted. split_and!; try done.
      intros i m Hi Hid _. exfalso.
      by apply (Forall_lookup_1 _ _ _ _ Hids Hi).
    + unfold first_with_id.
      destruct (list_find _ l) as [[k mk]|] eqn:Hfind; cbn [fmap option_fmap option_map fst].
      * apply list_find_Some in Hfind as (Hk & Hidk & Hfirst).
        split_and!; try done.
        -- intros i m Hi Hid Hbefore.
           assert (i = k) as ->.
           { destruct (Nat.lt_trichotomy i k) as [Hlt|[->|Hgt]]; [|done|].
             - by destruct (Hfirst i m Hi Hlt).
             - by destruct (Hbefore k mk Hgt Hk). }
           apply Hrow. by eapply lookup_lt_Some.
        -- intros Hno. exfalso. eapply Hno; [|exact Hidk].
           by eapply list_elem_of_lookup_2.
      * apply list_find_None in Hfind.
        split_and!; try done.
        intros i m Hi Hid _. exfalso.
        by apply (Forall_lookup_1 _ _ _ _ Hfind Hi).
  - split_and!; try done.
    intros Hne. rewrite Hidem. apply (Hrow 0%nat). destruct l; [done|cbn; lia].
Qed.

End Further.

(** ** The order of the clone rows *)

Section SortedByName.

Context {A : Type}.

Implicit Types (l r : list (Val * A)) (x : A).

Lemma ltb_asym (s t : string) : String.ltb s t = true → String.ltb t s = false.
Proof.
  unfold String.ltb. rewrite (String.compare_antisym s t).
  destruct (String.compare t s); cbn; congruence.
Qed.

Lemma ltb_irrefl (s : string) : String.ltb s s = false.
Proof.
  destruct (String.ltb s s) eqn:Hlt; [|done].
  pose proof (ltb_asym _ _ Hlt). congruence.
Qed.

Lemma with_key_cons (k s : string) x l :
  with_key k ((VStr s, x) :: l) =
  if String.eqb s k then x :: with_key k l else with_key k l.
Proof. unfold with_key. cbn. by destruct (String.eqb s k). Qed.

Lemma insert_str_keys (s : string) x l :
  str_keys l →
  ∃ r, Py.insert (VStr s) x l = Some r ∧
       str_keys r ∧
       r ≡ₚ (VStr s, x) :: l ∧
       (∀ k, with_key k r = with_key k ((VStr s, x) :: l)) ∧
       (∀ a, not_before a (VStr s, x) → HdRel not_before a l → HdRel not_before a r) ∧
       (ascending l → ascending r).
Proof.
  intros Hl. induction Hl as [|[ky y] l [t Ht] Hl IH]; cbn [Py.insert].
  - eexists. split_and!; try done.
    + by repeat constructor; eexists.
    + intros a Ha _. by constructor.
    + intros _. by repeat constructor.
  - cbn in Ht. subst ky. cbn [Py.lt].
    destruct (String.ltb t s) eqn:Hlt.
    + destruct IH as (r & -> & Hr & Hperm & Hkeys & Hhd & Hasc).
      eexists. split_and!; try done.
      * constructor; [by eexists|done].
      * rewrite Hperm. apply perm_swap.
      * intros k. rewrite !with_key_cons, Hkeys, with_key_cons.
        destruct (String.eqb_spec s k) as [->|]; [|done].
        destruct (String.eqb_spec t k) as [->|]; [|done].
        by rewrite ltb_irrefl in Hlt.
      * intros a _ Ha. constructor. by inversion Ha.
      * intros Hsorted. inversion Hsorted as [|? ? Hs Hh]; subst.
        constructor; [by apply Hasc|]. apply Hhd; [|done].
        unfold not_before. cbn. by rewrite (ltb_asym _ _ Hlt).
    + eexists. split_and!; try done.
      * constructor; [by eexists|]. constructor; [by eexists|done].
      * intros a Ha _. by constructor.
      * intros Hsorted. constructor; [done|]. constructor.
        unfold not_before. cbn. by rewrite Hlt.
Qed.

(** X18. On note types whose names are strs, [sorted(..., key=name)] never
    raises and returns the same elements ordered by name (byte order), with
    equal names in the order they had: the clone rows of the picker are the
    collection's note types in exactly that order. *)
Theorem sorted_keyed_str_keys l :
  str_keys l →
  ∃ r, Py.sorted_keyed l = Some r ∧
       r ≡ₚ l ∧
       ascending r ∧
       (∀ k, with_key k r = with_key k l).
Proof.
  intros Hl.
  assert (∃ r, Py.sorted_keyed l = Some r ∧ str_keys r ∧ r ≡ₚ l ∧ ascending r ∧
               ∀ k, with_key k r = with_key k l) as (r & ? & _ & ? & ? & ?);
    [|by eauto].
  induction Hl as [|[ky y] l [t Ht] Hl IH]; cbn [Py.sorted_keyed].
  - eexists. split_and!; try done; constructor.
  - cbn in Ht. subst ky. destruct IH as (r' & -> & Hr' & Hperm & Hasc & Hkeys).
    destruct (insert_str_keys t y r' Hr') as (r & Hins & Hr & Hp & Hk & _ & Hs).
    exists r. split_and!; try done.
    + by rewrite Hp, Hperm.
    + by apply Hs.
    + intros k. by rewrite Hk, !with_key_cons, Hkeys.
Qed.

(** A str name next to an int name does not compare: [sorted] raises
    TypeError (here [None]) on any two such keys, in either order. *)
Example sorted_keyed_mixed_keys (s : string) (z : Z) x y :
  Py.sorted_keyed [(VStr s, x); (VInt z, y)] = None ∧
  Py.sorted_keyed [(VInt z, y); (VStr s, x)] = None.
Proof. done. Qed.

End SortedByName.

(** ** The further properties at work on the small collection *)

(** A refresh with the same two entries keeps row 1. *)
Lemma updateModelsList_keeps_row_in_range_witness :
  let w := InMemory.showing InMemory.two 1 in
  let l := InMemory.all_use_counts InMemory.two in
  (row_in_range (dlg w) ∧ (length (models (dlg w)) ≤ length l)%nat) ∧
  QListWidget.currentRow (modelsList (dlg (final (updateModelsList l w)))) = 1 ∧
  row_in_range (dlg (final (updateModelsList l w))).
Proof.
  intros w l.
  assert (row_in_range (dlg w)) as H1 by (unfold row_in_range; cbn; lia).
  assert (length (models (dlg w)) ≤ length l)%nat as H2 by (cbn; lia).
  split; [done|]. exact (updateModelsList_keeps_row_in_range l w H1 H2).
Defined.

(** Selecting the last row, deleting it and renaming keeps the rows in step. *)
Lemma exec__keeps_tidy_witness :
  let w := InMemory.showing InMemory.two 0 in
  let ops := [ClickRow 1; ClickDelete true; ClickRename ("Z"%string, true)] in
  tidy (dlg w) ∧ tidy (dlg (final (exec_ ops w))).
Proof.
  intros w ops.
  assert (tidy (dlg w)) as H1 by (split; [reflexivity | right; cbn; lia]).
  split; [done|]. exact (exec__keeps_tidy ops w H1).
Defined.

(** After the last row was deleted no row is current, and [current_notetype]
    still finds an entry: the last one. *)
Lemma current_notetype_finds_an_entry_witness :
  let w := final (Models__init__ true None [ClickRow 1; ClickDelete true] InMemory.two) in
  (tidy (dlg w) ∧ models (dlg w) ≠ []) ∧
  ∃ m, m ∈ models (dlg w) ∧
    current_notetype w =
    mkResult (Returned (models_get (NoteTypeNameIDUseCount.id m) (col w))) w
      [EGet (NoteTypeNameIDUseCount.id m)].
Proof.
  intros w.
  assert (tidy (dlg w)) as H1 by (split; [vm_compute; reflexivity | left; vm_compute; reflexivity]).
  assert (models (dlg w) ≠ []) as H2 by (vm_compute; discriminate).
  split; [done|]. exact (current_notetype_finds_an_entry w H1 H2).
Defined.

(** A locked collection refuses the schema change. *)
Lemma onDelete_aborted_by_schema_check_witness :
  let c := InMemory.mk [(InMemory.notetype 1 "A", 0); (InMemory.notetype 2 "B", 3)] None true in
  let w := InMemory.showing c 1 in
  let m := NoteTypeNameIDUseCount.mk "B" 2 3 in
  ((2 ≤ length (models (dlg w)))%nat ∧
   Py.index (models (dlg w)) (QListWidget.current (modelsList (dlg w))) = Some m ∧
   modSchema true (col w) = None) ∧
  onDelete true w =
  mkResult (Raised AbortSchemaModification) w
    [EAskUser notetypes_delete_this_note_type_and_all true; EModSchema true].
Proof.
  intros c w m.
  assert (2 ≤ length (models (dlg w)))%nat as H1 by (cbn; lia).
  assert (Py.index (models (dlg w)) (QListWidget.current (modelsList (dlg w))) = Some m)
    as H2 by (vm_compute; reflexivity).
  assert (modSchema true (col w) = None) as H3 by (vm_compute; reflexivity).
  split; [done|]. exact (onDelete_aborted_by_schema_check w m H1 H2 H3).
Defined.

(** The question for the unused note type B. *)
Lemma onDelete_question_witness :
  let w := InMemory.showing InMemory.two 1 in
  calls (onDelete true w) !! 0%nat =
    Some (EAskUser notetypes_delete_this_unused_note_type true) ∧
  ∃ m, Py.index (models (dlg w)) (QListWidget.current (modelsList (dlg w))) = Some m ∧
    notetypes_delete_this_unused_note_type =
      if bool_decide (NoteTypeNameIDUseCount.use_count m = 0)
      then notetypes_delete_this_unused_note_type
      else notetypes_delete_this_note_type_and_all.
Proof.
  intros w.
  assert (calls (onDelete true w) !! 0%nat =
          Some (EAskUser notetypes_delete_this_unused_note_type true)) as H1
    by (vm_compute; reflexivity).
  split; [done|].
  exact (proj2 (proj2 (onDelete_question true w 0 _ _ H1))).
Defined.

(** Deleting B from the collection of A and B. *)
Lemma onDelete_removes_current_witness :
  let w := InMemory.showing InMemory.two 1 in
  let m := NoteTypeNameIDUseCount.mk "B" 2 0 in
  let nt := InMemory.notetype 2 "B" in
  ((2 ≤ length (models (dlg w)))%nat ∧
   Py.index (models (dlg w)) (QListWidget.current (modelsList (dlg w))) = Some m ∧
   modSchema true (col w) = Some InMemory.two ∧
   models_get (NoteTypeNameIDUseCount.id m) InMemory.two = Some nt) ∧
  col (final (onDelete true w)) = models_rem nt InMemory.two.
Proof.
  intros w m nt.
  assert (2 ≤ length (models (dlg w)))%nat as H1 by (cbn; lia).
  assert (Py.index (models (dlg w)) (QListWidget.current (modelsList (dlg w))) = Some m)
    as H2 by (vm_compute; reflexivity).
  assert (modSchema true (col w) = Some InMemory.two) as H3 by (vm_compute; reflexivity).
  assert (models_get (NoteTypeNameIDUseCount.id m) InMemory.two = Some nt) as H4
    by (vm_compute; reflexivity).
  split; [done|].
  exact (proj1 (proj2 (onDelete_removes_current w m _ nt H1 H2 H3 H4))).
Defined.

(** The user clones B and cancels the name prompt with x, double quote, y
    typed: the copy is saved as xy all the same. *)
Lemma onAdd_saves_picked_notetype_witness :
  let w := InMemory.showing InMemory.two 0 in
  let picker := Accept (Some 2%nat) in
  let text := String "x" (String Py.dquote "y") in
  let p := nested (D:=Models) AddModel_new (AddModel__init__;; AddModel_get picker) w in
  let picked := (InMemory.copy (InMemory.notetype 2 "B") InMemory.two).1 in
  (outcome p = Returned (Some picked) ∧ picked !! "name" = Some (VStr "B copy")) ∧
  calls (onAdd picker (text, false) w) =
    calls p ++ [EGetText actions_name (VStr "B copy") (text, false);
                EWithProgress; ESave (<["name" := VStr "xy"]> picked); EAllUseCounts;
                EOnDone].
Proof.
  intros w picker text p picked.
  assert (outcome p = Returned (Some picked)) as H1 by (vm_compute; reflexivity).
  assert (picked !! "name" = Some (VStr "B copy")) as H2 by (vm_compute; reflexivity).
  split; [done|].
  exact (proj1 (proj2 (onAdd_saves_picked_notetype picker text false w picked _ H1 H2))).
Defined.

(** The options of A. *)
Lemma onAdvanced_saves_options_witness :
  let w := InMemory.showing InMemory.two 0 in
  let nt := InMemory.notetype 1 "A" in
  let answer := mkOptions true "\documentclass{article}" "\end{document}" in
  (outcome (current_notetype w) = Returned (Some nt) ∧
   nt !! "latexPre" = Some (VStr "") ∧
   nt !! "latexPost" = Some (VStr "") ∧
   nt !! "name" = Some (VStr "A")) ∧
  outcome (onAdvanced answer w) = Returned tt.
Proof.
  intros w nt answer.
  assert (outcome (current_notetype w) = Returned (Some nt)) as H1
    by (vm_compute; reflexivity).
  assert (nt !! "latexPre" = Some (VStr "")) as H2 by (vm_compute; reflexivity).
  assert (nt !! "latexPost" = Some (VStr "")) as H3 by (vm_compute; reflexivity).
  assert (nt !! "name" = Some (VStr "A")) as H4 by (vm_compute; reflexivity).
  split; [done|].
  exact (proj1 (onAdvanced_saves_options answer w nt _ _ _ H1 H2 H3 H4)).
Defined.

(** A note type without LaTeX settings. *)
Lemma onAdvanced_missing_key_witness :
  let nt : NoteType := {[ "id" := VInt 1; "name" := VStr "A" ]} in
  let w := InMemory.showing (InMemory.mk [(nt, 0)] None false) 0 in
  let answer := mkOptions false "" "" in
  (outcome (current_notetype w) = Returned (Some nt) ∧
   (nt !! "latexPre" = None ∨ nt !! "latexPost" = None ∨ nt !! "name" = None)) ∧
  final (onAdvanced answer w) = w.
Proof.
  intros nt w answer.
  assert (outcome (current_notetype w) = Returned (Some nt)) as H1
    by (vm_compute; reflexivity).
  assert (nt !! "latexPre" = None ∨ nt !! "latexPost" = None ∨ nt !! "name" = None) as H2
    by (left; vm_compute; reflexivity).
  split; [done|].
  exact (proj2 (proj2 (onAdvanced_missing_key answer w nt H1 H2))).
Defined.

(** A collection with a note type that has no name. *)
Lemma AddModel__init___unnamed_notetype_witness :
  let c := InMemory.mk [({[ "id" := VInt 1 ]}, 0)] None false in
  mapM (λ nt : NoteType, nt !! "name") (models_all c) = None ∧
  outcome (AddModel__init__ (mkWorld c AddModel_new)) = Raised (KeyError "name").
Proof.
  intros c.
  assert (mapM (λ nt : NoteType, nt !! "name") (models_all c) = None) as H1
    by (vm_compute; reflexivity).
  split; [done|].
  exact (f_equal outcome (AddModel__init___unnamed_notetype c H1)).
Defined.

(** The picker over B and A lists A before B. *)
Lemma AddModel__init___run_witness :
  let a := InMemory.notetype 1 "A" in
  let b := InMemory.notetype 2 "B" in
  let c := InMemory.mk [(b, 0); (a, 0)] None false in
  (mapM (λ nt : NoteType, nt !! "name") (models_all c) = Some [VStr "B"; VStr "A"] ∧
   Py.sorted_keyed (zip [VStr "B"; VStr "A"] (models_all c)) =
     Some [(VStr "A", a); (VStr "B", b)]) ∧
  am_models (dlg (final (AddModel__init__ (mkWorld c AddModel_new)))) =
    [Stock InMemory.basic; Clone a; Clone b].
Proof.
  intros a b c.
  assert (mapM (λ nt : NoteType, nt !! "name") (models_all c) = Some [VStr "B"; VStr "A"])
    as H1 by (vm_compute; reflexivity).
  assert (Py.sorted_keyed (zip [VStr "B"; VStr "A"] (models_all c)) =
          Some [(VStr "A", a); (VStr "B", b)]) as H2 by (vm_compute; reflexivity).
  split; [done|].
  exact (f_equal (λ r, am_models (dlg (final r))) (AddModel__init___run c _ _ H1 H2)).
Defined.

(** Three keyed elements, two of them under the same name. *)
Lemma sorted_keyed_str_keys_witness :
  let l := [(VStr "b", 1%nat); (VStr "a", 2%nat); (VStr "b", 3%nat)] in
  str_keys l ∧
  ∃ r, Py.sorted_keyed l = Some r ∧ r ≡ₚ l ∧ ascending r ∧
       ∀ k, with_key k r = with_key k l.
Proof.
  intros l.
  assert (str_keys l) as H1 by (repeat constructor; by eexists).
  split; [done|]. exact (sorted_keyed_str_keys l H1).
Defined.

(** The theorem at work after the load of A and B with the id of B passed:
    B is the first entry with that id, at row 1. *)
Lemma maybe_select_provided_notetype_after_load_witness :
  let l := InMemory.all_use_counts InMemory.two in
  let loaded := final (updateModelsList l (mkWorld InMemory.two (Models_new true (Some 2)))) in
  Forall (λ m, NoteTypeNameIDUseCount.id m ≠ 0) l ∧
  QListWidget.currentRow (modelsList (dlg (final (maybe_select_provided_notetype loaded)))) = 1.
Proof.
  intros l loaded.
  assert (Forall (λ m, NoteTypeNameIDUseCount.id m ≠ 0) l) as H1
    by (unfold l; cbn; repeat (constructor; [vm_compute; discriminate|]); constructor).
  split; [done|].
  refine (proj1 (proj2 (proj2 (proj2 (proj2 (proj2
    (maybe_select_provided_notetype_after_load true (Some 2) InMemory.two l H1))))))
    1%nat (NoteTypeNameIDUseCount.mk "B" 2 0) eq_refl eq_refl _).
  intros j m' Hj Hm'. destruct j as [|j]; [|lia].
  vm_compute in Hm'. injection Hm' as <-. vm_compute. discriminate.
Defined.

(** The theorem at work: a rename of A to the text a, double quote, b, and a
    clone of B named with the text x, double quote, y: the names saved are
    ab and xy. *)
Lemma names_are_stored_without_double_quotes_witness :
  let w := InMemory.showing InMemory.two 0 in
  let picked := (InMemory.copy (InMemory.notetype 2 "B") InMemory.two).1 in
  ESave (<["name" := VStr "ab"]> (InMemory.notetype 1 "A"))
    ∈ calls (onRename (String "a" (String Py.dquote "b"), true) w) ∧
  ESave (<["name" := VStr "xy"]> picked)
    ∈ calls (onAdd (Accept (Some 2%nat)) (String "x" (String Py.dquote "y"), true) w).
Proof.
  intros w picked.
  destruct names_are_stored_without_double_quotes as (_ & _ & Hrename & Hadd & _).
  split.
  - refine (proj1 (proj2 (Hrename (String "a" (String Py.dquote "b")) w
      (InMemory.notetype 1 "A") (VStr "A") _ _ _))).
    + vm_compute. reflexivity.
    + vm_compute. reflexivity.
    + vm_compute. discriminate.
  - refine (proj1 (proj2 (Hadd (Accept (Some 2%nat)) (String "x" (String Py.dquote "y")) true w
      picked (VStr "B copy") _ _ _))).
    + vm_compute. reflexivity.
    + vm_compute. reflexivity.
    + vm_compute. discriminate.
Defined.
